(** * spotify-api.js: the current-user client and the Artist structure

    A shallow embedding of [UserClient] (the current-user resource client) and
    of [structures/Artist.ts].  JavaScript values are a small inductive type,
    a promise that resolves or rejects is an [Outcome], and the methods of
    [UserClient], which assign to the fields of [this] and talk to the HTTP
    layer, run in a state-and-exception monad whose state survives a throw,
    as the fields of a JavaScript object do. *)

From Stdlib Require Import String List ZArith Bool.
From ExtLib Require Import Structures.Monad.
Import ListNotations.
Import MonadNotation.
Local Open Scope string_scope.
Local Open Scope monad_scope.
Set Warnings "-register-all".

(** ** JavaScript values *)

(** The values a decoded JSON body or an argument can be.  Numbers are the
    integer-valued ones, which is all the program reads (counts, limits and
    offsets); an object is the list of its own properties in insertion
    order. *)
Inductive JSValue : Type :=
| JUndefined
| JNull
| JBool (b : bool)
| JNum (n : Z)
| JStr (s : string)
| JArr (elems : list JSValue)
| JObj (props : list (string * JSValue)).

Abbreviation Obj := (list (string * JSValue)) (only parsing).

Fixpoint lookup (k : string) (o : Obj) : option JSValue :=
  match o with
  | [] => None
  | (k', v) :: o' => if String.eqb k k' then Some v else lookup k o'
  end.

(** [o.k] on an object: a missing property reads as [undefined]. *)
Definition member (k : string) (o : Obj) : JSValue :=
  match lookup k o with
  | Some v => v
  | None => JUndefined
  end.

Definition has_key (k : string) (o : Obj) : bool :=
  match lookup k o with
  | Some _ => true
  | None => false
  end.

(** [o[k] = v]: an existing property keeps its place, a new one goes last. *)
Fixpoint obj_set (k : string) (v : JSValue) (o : Obj) : Obj :=
  match o with
  | [] => [(k, v)]
  | (k', v') :: o' =>
      if String.eqb k k' then (k', v) :: o' else (k', v') :: obj_set k v o'
  end.

(** [{...o}]: the own properties of [o] copied one by one into a fresh
    object; spreading [undefined] copies nothing. *)
Definition spread (o : option Obj) : Obj :=
  match o with
  | Some props => fold_left (fun acc kv => obj_set (fst kv) (snd kv) acc) props []
  | None => []
  end.

(** JavaScript truthiness: [undefined], [null], [false], [0] and the empty
    string are falsy. *)
Definition truthy (v : JSValue) : bool :=
  match v with
  | JUndefined | JNull => false
  | JBool b => b
  | JNum n => negb (Z.eqb n 0)
  | JStr s => negb (String.eqb s "")
  | JArr _ | JObj _ => true
  end.

(** [a || b] *)
Definition js_or (a b : JSValue) : JSValue :=
  if truthy a then a else b.

(** [ids.join(',')] on an array of strings. *)
Definition join (ids : list string) : string := String.concat "," ids.

(** ** Exceptions and outcomes *)

(** What can be thrown: whatever the HTTP layer rejects with, the
    [TypeError] of the language itself, and [UnexpectedError] of
    [./Errors], which wraps its cause. *)
Inductive Exn : Type :=
| Thrown (v : JSValue)
| TypeError (msg : string)
| UnexpectedError (cause : Exn).

Inductive Outcome (A : Type) : Type :=
| Return (a : A)
| Throw (e : Exn).
Arguments Return {A} a.
Arguments Throw {A} e.

#[global] Instance Monad_Outcome : Monad Outcome :=
  {| ret := fun _ a => Return a;
     bind := fun _ _ c k =>
               match c with
               | Return a => k a
               | Throw e => Throw e
               end |}.

(** [v.k] for the property names this program reads ([limit], [items],
    [followers], [total], ...): none of them is a property of a primitive,
    of an array or of [Object.prototype], so only an object can answer with
    something else than [undefined]; reading from [undefined] or [null]
    throws. *)
Definition getProp (v : JSValue) (k : string) : Outcome JSValue :=
  match v with
  | JUndefined => Throw (TypeError ("Cannot read properties of undefined (reading '" ++ k ++ "')"))
  | JNull => Throw (TypeError ("Cannot read properties of null (reading '" ++ k ++ "')"))
  | JObj o => Return (member k o)
  | JBool _ | JNum _ | JStr _ | JArr _ => Return JUndefined
  end.

(** ['k' in v], for a [k] that is no array index: an object answers by its
    keys, anything that is not an object throws. *)
Definition in_op (k : string) (v : JSValue) : Outcome bool :=
  match v with
  | JObj o => Return (has_key k o)
  | JArr _ => Return false
  | JUndefined | JNull | JBool _ | JNum _ | JStr _ =>
      Throw (TypeError ("Cannot use 'in' operator to search for '" ++ k ++ "'"))
  end.

(** [v[0]] *)
Definition index0 (v : JSValue) : Outcome JSValue :=
  match v with
  | JUndefined => Throw (TypeError "Cannot read properties of undefined (reading '0')")
  | JNull => Throw (TypeError "Cannot read properties of null (reading '0')")
  | JArr [] => Return JUndefined
  | JArr (x :: _) => Return x
  | JStr EmptyString => Return JUndefined
  | JStr (String c _) => Return (JStr (String c EmptyString))
  | JObj o => Return (member "0" o)
  | JBool _ | JNum _ => Return JUndefined
  end.

Fixpoint mapM {A B : Type} (f : A -> Outcome B) (xs : list A) : Outcome (list B) :=
  match xs with
  | [] => Return []
  | x :: xs' =>
      y <- f x ;;
      ys <- mapM f xs' ;;
      ret (y :: ys)
  end.

(** [items.map(f)]: only an array has [map]. *)
Definition js_map {B : Type} (items : JSValue) (f : JSValue -> Outcome B)
  : Outcome (list B) :=
  match items with
  | JArr xs => mapM f xs
  | JUndefined => Throw (TypeError "Cannot read properties of undefined (reading 'map')")
  | JNull => Throw (TypeError "Cannot read properties of null (reading 'map')")
  | JBool _ | JNum _ | JStr _ | JObj _ => Throw (TypeError "items.map is not a function")
  end.

(** ** The HTTP layer and the client *)

(** One call of [client.util.fetch(path, options)].  A key that the call
    leaves out, or passes as [undefined], is [None]. *)
Record Request : Type := mkRequest {
  path : string;
  method : option string;
  params : option Obj;
  headers : option Obj;
  body : option Obj
}.

(** [Client.ts] is not among the sources.  A client is the members this
    program calls on it: [util.fetch], [playlists.userFollows] and
    [artists.get].  An [Artist] is the object [structures/Artist.ts] builds;
    its accessors are in module [Artist] below. *)
Inductive Client : Type :=
  mkClient (util_fetch : Request -> Outcome JSValue)
           (playlists_userFollows : string -> JSValue -> Outcome JSValue)
           (artists_get : JSValue -> Outcome (option Artist))
with Artist : Type :=
  mkArtist (data : JSValue) (client : Client)
           (externalUrls href id name type uri images : JSValue)
           (simplified : bool)
           (totalFollowers genres popularity : JSValue).

(** [client.util.fetch] *)
Definition util_fetch (c : Client) : Request -> Outcome JSValue :=
  match c with mkClient f _ _ => f end.

(** [client.playlists.userFollows] *)
Definition playlists_userFollows (c : Client) : string -> JSValue -> Outcome JSValue :=
  match c with mkClient _ f _ => f end.

(** [client.artists.get] *)
Definition artists_get (c : Client) : JSValue -> Outcome (option Artist) :=
  match c with mkClient _ _ f => f end.

(** What the two source files import and this development does not have:
    the [Track] and [Album] structures with their constructors, the
    constructor of [Client], and [handleError] of [./Errors], which either
    returns a value or throws. *)
Class Imports : Type := {
  Track : Type;
  Track_new : JSValue -> Client -> Outcome Track;
  Album : Type;
  Album_new : JSValue -> Client -> Outcome Album;
  Client_new : string -> Client;
  handleError : Exn -> Outcome JSValue
}.

(** ** structures/Artist.ts *)

Module Artist.

Definition data (a : Artist) : JSValue :=
  match a with mkArtist d _ _ _ _ _ _ _ _ _ _ _ _ => d end.
Definition client (a : Artist) : Client :=
  match a with mkArtist _ c _ _ _ _ _ _ _ _ _ _ _ => c end.
Definition externalUrls (a : Artist) : JSValue :=
  match a with mkArtist _ _ x _ _ _ _ _ _ _ _ _ _ => x end.
Definition href (a : Artist) : JSValue :=
  match a with mkArtist _ _ _ x _ _ _ _ _ _ _ _ _ => x end.
Definition id (a : Artist) : JSValue :=
  match a with mkArtist _ _ _ _ x _ _ _ _ _ _ _ _ => x end.
Definition name (a : Artist) : JSValue :=
  match a with mkArtist _ _ _ _ _ x _ _ _ _ _ _ _ => x end.
Definition type (a : Artist) : JSValue :=
  match a with mkArtist _ _ _ _ _ _ x _ _ _ _ _ _ => x end.
Definition uri (a : Artist) : JSValue :=
  match a with mkArtist _ _ _ _ _ _ _ x _ _ _ _ _ => x end.
Definition images (a : Artist) : JSValue :=
  match a with mkArtist _ _ _ _ _ _ _ _ x _ _ _ _ => x end.
Definition simplified (a : Artist) : bool :=
  match a with mkArtist _ _ _ _ _ _ _ _ _ x _ _ _ => x end.
Definition totalFollowers (a : Artist) : JSValue :=
  match a with mkArtist _ _ _ _ _ _ _ _ _ _ x _ _ => x end.
Definition genres (a : Artist) : JSValue :=
  match a with mkArtist _ _ _ _ _ _ _ _ _ _ _ x _ => x end.
Definition popularity (a : Artist) : JSValue :=
  match a with mkArtist _ _ _ _ _ _ _ _ _ _ _ _ x => x end.

(** [new Artist(data, client)].  The three optional fields are assigned
    only in the branch of ['popularity' in data]; elsewhere they read as
    [undefined]. *)
Definition constructor (data : JSValue) (client : Client) : Outcome Artist :=
  externalUrls <- getProp data "external_urls" ;;
  href <- getProp data "href" ;;
  id <- getProp data "id" ;;
  name <- getProp data "name" ;;
  type <- getProp data "type" ;;
  uri <- getProp data "uri" ;;
  images <- getProp data "images" ;;
  full <- in_op "popularity" data ;;
  if (full : bool) then
    followers <- getProp data "followers" ;;
    totalFollowers <- getProp followers "total" ;;
    genres <- getProp data "genres" ;;
    popularity <- getProp data "popularity" ;;
    ret (mkArtist data client externalUrls href id name type uri
                  (js_or images (JArr [])) false
                  totalFollowers genres popularity)
  else
    ret (mkArtist data client externalUrls href id name type uri
                  (js_or images (JArr [])) true
                  JUndefined JUndefined JUndefined).

(** [artist.fetch()]: the entity the method is called on, as it is when
    the call is over, and what the call resolves to. *)
Definition fetch (this : Artist) : Artist * Outcome (option Artist) :=
  (this, artists_get (client this) (id this)).

End Artist.

(** ** Types.ts: the paging envelope *)

Section Envelope.
Context {imports : Imports}.

(** An element of [items]: each list endpoint builds one kind. *)
Inductive Item : Type :=
| ITrack (t : Track)
| IArtist (a : Artist)
| IAlbum (a : Album).

Record Paging : Type := mkPaging {
  limit : JSValue;
  offset : JSValue;
  total : JSValue;
  items : list Item
}.

End Envelope.

(** ** UserClient *)

Module UserClient.

(** The instance: [client] is the property the constructor defines, the
    rest are the profile fields.  The declared types are erased when the
    program runs, so a field holds whatever was assigned to it. *)
Record t : Type := mk {
  client : Client;
  name : JSValue;
  country : JSValue;
  email : JSValue;
  externalUrls : JSValue;
  totalFollowers : JSValue;
  href : JSValue;
  id : JSValue;
  images : JSValue;
  product : JSValue;
  uri : JSValue
}.

(** [this.f = v], one per assigned field. *)
Definition set_name (v : JSValue) (u : t) : t :=
  mk (client u) v (country u) (email u) (externalUrls u) (totalFollowers u)
     (href u) (id u) (images u) (product u) (uri u).
Definition set_country (v : JSValue) (u : t) : t :=
  mk (client u) (name u) v (email u) (externalUrls u) (totalFollowers u)
     (href u) (id u) (images u) (product u) (uri u).
Definition set_email (v : JSValue) (u : t) : t :=
  mk (client u) (name u) (country u) v (externalUrls u) (totalFollowers u)
     (href u) (id u) (images u) (product u) (uri u).
Definition set_externalUrls (v : JSValue) (u : t) : t :=
  mk (client u) (name u) (country u) (email u) v (totalFollowers u)
     (href u) (id u) (images u) (product u) (uri u).
Definition set_totalFollowers (v : JSValue) (u : t) : t :=
  mk (client u) (name u) (country u) (email u) (externalUrls u) v
     (href u) (id u) (images u) (product u) (uri u).
Definition set_href (v : JSValue) (u : t) : t :=
  mk (client u) (name u) (country u) (email u) (externalUrls u) (totalFollowers u)
     v (id u) (images u) (product u) (uri u).
Definition set_id (v : JSValue) (u : t) : t :=
  mk (client u) (name u) (country u) (email u) (externalUrls u) (totalFollowers u)
     (href u) v (images u) (product u) (uri u).
Definition set_images (v : JSValue) (u : t) : t :=
  mk (client u) (name u) (country u) (email u) (externalUrls u) (totalFollowers u)
     (href u) (id u) v (product u) (uri u).
Definition set_product (v : JSValue) (u : t) : t :=
  mk (client u) (name u) (country u) (email u) (externalUrls u) (totalFollowers u)
     (href u) (id u) (images u) v (uri u).
Definition set_uri (v : JSValue) (u : t) : t :=
  mk (client u) (name u) (country u) (email u) (externalUrls u) (totalFollowers u)
     (href u) (id u) (images u) (product u) v.

(** What a method call can see and change: the instance it is called on,
    and the requests handed to the HTTP layer so far, oldest first. *)
Record State : Type := mkState {
  this : t;
  sent : list Request
}.

(** A method body: it ends by returning or by throwing, and the state it
    leaves is kept in both cases. *)
Definition M (A : Type) : Type := State -> Outcome A * State.

#[global] Instance Monad_M : Monad M :=
  {| ret := fun _ a s => (Return a, s);
     bind := fun _ _ c k s =>
               match c s with
               | (Return a, s') => k a s'
               | (Throw e, s') => (Throw e, s')
               end |}.

Definition throw {A : Type} (e : Exn) : M A :=
  fun s => (Throw e, s).

(** [try { body } catch (e) { handler }] *)
Definition try_catch {A : Type} (body : M A) (handler : Exn -> M A) : M A :=
  fun s =>
    match body s with
    | (Return a, s') => (Return a, s')
    | (Throw e, s') => handler e s'
    end.

(** A computation that touches neither the instance nor the network. *)
Definition lift {A : Type} (o : Outcome A) : M A :=
  fun s => (o, s).

Definition get_this : M t :=
  fun s => (Return (this s), s).

Definition assign (f : t -> t) : M unit :=
  fun s => (Return tt, mkState (f (this s)) (sent s)).

(** [await this.client.util.fetch(...)] *)
Definition fetch (req : Request) : M JSValue :=
  fun s => (util_fetch (client (this s)) req, mkState (this s) (sent s ++ [req])).

Section Methods.
Context {imports : Imports}.

(** What a method resolves to: a plain value, a paging envelope, or the
    instance itself. *)
Inductive Answer : Type :=
| AJson (v : JSValue)
| APaging (p : Paging)
| AThis (u : t).

(** [handleError(e) || fallback] *)
Definition or_fallback (fallback : Answer) (e : Exn) : M Answer :=
  v <- lift (handleError e) ;;
  ret (if truthy v then AJson v else fallback).

Definition zero_paging : Paging :=
  mkPaging (JNum 0) (JNum 0) (JNum 0) [].

Definition constructor (token : string + Client) : t :=
  mk (match token with
      | inl tok => Client_new tok
      | inr c => c
      end)
     (JStr "") (JStr "") (JStr "unknown") (JObj []) (JNum 0)
     (JStr "") (JStr "") (JArr []) (JStr "unknown") (JStr "").

Definition info : M Answer :=
  try_catch
    (data <- fetch (mkRequest "/me" None None None None) ;;
     v <- lift (getProp data "display_name") ;; assign (set_name v) ;;
     v <- lift (getProp data "country") ;;
     assign (set_country (js_or v (JStr "unknown"))) ;;
     v <- lift (getProp data "id") ;; assign (set_id v) ;;
     v <- lift (getProp data "email") ;;
     assign (set_email (js_or v (JStr "unknown"))) ;;
     v <- lift (getProp data "external_urls") ;; assign (set_externalUrls v) ;;
     followers <- lift (getProp data "followers") ;;
     v <- lift (getProp followers "total") ;; assign (set_totalFollowers v) ;;
     v <- lift (getProp data "href") ;; assign (set_href v) ;;
     v <- lift (getProp data "images") ;; assign (set_images v) ;;
     v <- lift (getProp data "product") ;;
     assign (set_product (js_or v (JStr "unknown"))) ;;
     v <- lift (getProp data "uri") ;; assign (set_uri v))
    (fun e => throw (UnexpectedError e)) ;;
  u <- get_this ;;
  ret (AThis u).

Definition getTopTracks (options : option Obj) : M Answer :=
  let options := match options with Some o => o | None => [] end in
  try_catch
    (tracks <- fetch (mkRequest "/me/top/tracks" None (Some options) None None) ;;
     limit <- lift (getProp tracks "limit") ;;
     offset <- lift (getProp tracks "offset") ;;
     total <- lift (getProp tracks "total") ;;
     items <- lift (getProp tracks "items") ;;
     u <- get_this ;;
     items <- lift (js_map items (fun x => Track_new x (client u))) ;;
     ret (APaging (mkPaging limit offset total (map ITrack items))))
    (or_fallback (APaging zero_paging)).

Definition getTopArtists (options : option Obj) : M Answer :=
  let options := match options with Some o => o | None => [] end in
  try_catch
    (artists <- fetch (mkRequest "/me/top/artists" None (Some options) None None) ;;
     limit <- lift (getProp artists "limit") ;;
     offset <- lift (getProp artists "offset") ;;
     total <- lift (getProp artists "total") ;;
     items <- lift (getProp artists "items") ;;
     u <- get_this ;;
     items <- lift (js_map items (fun x => Artist.constructor x (client u))) ;;
     ret (APaging (mkPaging limit offset total (map IArtist items))))
    (or_fallback (APaging zero_paging)).

Definition followPlaylist (id : string) (options : option Obj) : M Answer :=
  let options := match options with
                 | Some o => o
                 | None => [("public", JBool true)]
                 end in
  try_catch
    (_ <- fetch (mkRequest ("/playlists/" ++ id ++ "/followers")
                           (Some "PUT")
                           None
                           (Some [("Content-Type", JStr "application/json")])
                           (Some [("public", js_or (member "public" options) (JBool true))])) ;;
     ret (AJson (JBool true)))
    (or_fallback (AJson (JBool false))).

Definition unfollowPlaylist (id : string) : M Answer :=
  try_catch
    (_ <- fetch (mkRequest ("/playlists/" ++ id ++ "/followers")
                           (Some "DELETE") None None None) ;;
     ret (AJson (JBool true)))
    (or_fallback (AJson (JBool false))).

Definition followsPlaylist (id : string) : M Answer :=
  u <- get_this ;;
  r <- lift (playlists_userFollows (client u) id (UserClient.id u)) ;;
  first <- lift (index0 r) ;;
  ret (AJson (js_or first (JBool false))).

Definition getFollowingArtists (options : option Obj) : M Answer :=
  try_catch
    (r <- fetch (mkRequest "/me/following" None
                           (Some (obj_set "type" (JStr "artist") (spread options)))
                           None None) ;;
     artists <- lift (getProp r "artists") ;;
     limit <- lift (getProp artists "limit") ;;
     offset <- lift (getProp artists "offset") ;;
     total <- lift (getProp artists "total") ;;
     items <- lift (getProp artists "items") ;;
     u <- get_this ;;
     items <- lift (js_map items (fun x => Artist.constructor x (client u))) ;;
     ret (APaging (mkPaging limit offset total (map IArtist items))))
    (or_fallback (APaging zero_paging)).

Definition followArtists (ids : list string) : M Answer :=
  try_catch
    (_ <- fetch (mkRequest "/me/following" (Some "PUT")
                           (Some [("type", JStr "artist"); ("ids", JStr (join ids))])
                           None None) ;;
     ret (AJson (JBool true)))
    (or_fallback (AJson (JBool false))).

Definition unfollowArtists (ids : list string) : M Answer :=
  try_catch
    (_ <- fetch (mkRequest "/me/following" (Some "DELETE")
                           (Some [("type", JStr "artist"); ("ids", JStr (join ids))])
                           None None) ;;
     ret (AJson (JBool true)))
    (or_fallback (AJson (JBool false))).

Definition followUsers (ids : list string) : M Answer :=
  try_catch
    (_ <- fetch (mkRequest "/me/following" (Some "PUT")
                           (Some [("type", JStr "user"); ("ids", JStr (join ids))])
                           None None) ;;
     ret (AJson (JBool true)))
    (or_fallback (AJson (JBool false))).

Definition unfollowUsers (ids : list string) : M Answer :=
  try_catch
    (_ <- fetch (mkRequest "/me/following" (Some "DELETE")
                           (Some [("type", JStr "user"); ("ids", JStr (join ids))])
                           None None) ;;
     ret (AJson (JBool true)))
    (or_fallback (AJson (JBool false))).

Definition followsArtists (ids : list string) : M Answer :=
  try_catch
    (r <- fetch (mkRequest "/me/following/contains" None
                           (Some [("type", JStr "artist"); ("ids", JStr (join ids))])
                           None None) ;;
     ret (AJson r))
    (or_fallback (AJson (JArr []))).

Definition followsUsers (ids : list string) : M Answer :=
  try_catch
    (r <- fetch (mkRequest "/me/following/contains" None
                           (Some [("type", JStr "user"); ("ids", JStr (join ids))])
                           None None) ;;
     ret (AJson r))
    (or_fallback (AJson (JArr []))).

Definition getAlbums (options : option Obj) : M Answer :=
  try_catch
    (data <- fetch (mkRequest "/me/albums" None options None None) ;;
     limit <- lift (getProp data "limit") ;;
     offset <- lift (getProp data "offset") ;;
     total <- lift (getProp data "total") ;;
     items <- lift (getProp data "items") ;;
     u <- get_this ;;
     items <- lift (js_map items (fun x => Album_new x (client u))) ;;
     ret (APaging (mkPaging limit offset total (map IAlbum items))))
    (or_fallback (APaging zero_paging)).

Definition addAlbums (ids : list string) : M Answer :=
  try_catch
    (_ <- fetch (mkRequest "/me/albums" (Some "PUT")
                           (Some [("ids", JStr (join ids))]) None None) ;;
     ret (AJson (JBool true)))
    (or_fallback (AJson (JBool false))).

Definition deleteAlbums (ids : list string) : M Answer :=
  try_catch
    (_ <- fetch (mkRequest "/me/albums" (Some "DELETE")
                           (Some [("ids", JStr (join ids))]) None None) ;;
     ret (AJson (JBool true)))
    (or_fallback (AJson (JBool false))).

Definition hasAlbums (ids : list string) : M Answer :=
  try_catch
    (r <- fetch (mkRequest "/me/albums/contains" None
                           (Some [("ids", JStr (join ids))]) None None) ;;
     ret (AJson r))
    (or_fallback (AJson (JArr []))).

(** A call of one of the methods, with its arguments. *)
Inductive Call : Type :=
| CInfo
| CGetTopTracks (options : option Obj)
| CGetTopArtists (options : option Obj)
| CFollowPlaylist (id : string) (options : option Obj)
| CUnfollowPlaylist (id : string)
| CFollowsPlaylist (id : string)
| CGetFollowingArtists (options : option Obj)
| CFollowArtists (ids : list string)
| CUnfollowArtists (ids : list string)
| CFollowUsers (ids : list string)
| CUnfollowUsers (ids : list string)
| CFollowsArtists (ids : list string)
| CFollowsUsers (ids : list string)
| CGetAlbums (options : option Obj)
| CAddAlbums (ids : list string)
| CDeleteAlbums (ids : list string)
| CHasAlbums (ids : list string).

Definition perform (c : Call) : M Answer :=
  match c with
  | CInfo => info
  | CGetTopTracks options => getTopTracks options
  | CGetTopArtists options => getTopArtists options
  | CFollowPlaylist id options => followPlaylist id options
  | CUnfollowPlaylist id => unfollowPlaylist id
  | CFollowsPlaylist id => followsPlaylist id
  | CGetFollowingArtists options => getFollowingArtists options
  | CFollowArtists ids => followArtists ids
  | CUnfollowArtists ids => unfollowArtists ids
  | CFollowUsers ids => followUsers ids
  | CUnfollowUsers ids => unfollowUsers ids
  | CFollowsArtists ids => followsArtists ids
  | CFollowsUsers ids => followsUsers ids
  | CGetAlbums options => getAlbums options
  | CAddAlbums ids => addAlbums ids
  | CDeleteAlbums ids => deleteAlbums ids
  | CHasAlbums ids => hasAlbums ids
  end.

(** The value written after [handleError(e) ||] in the [catch] of a
    method; [info] and [followsPlaylist] have none. *)
Definition typed_fallback (c : Call) : option Answer :=
  match c with
  | CInfo | CFollowsPlaylist _ => None
  | CGetTopTracks _ | CGetTopArtists _ | CGetFollowingArtists _ | CGetAlbums _ =>
      Some (APaging zero_paging)
  | CFollowsArtists _ | CFollowsUsers _ | CHasAlbums _ =>
      Some (AJson (JArr []))
  | CFollowPlaylist _ _ | CUnfollowPlaylist _
  | CFollowArtists _ | CUnfollowArtists _ | CFollowUsers _ | CUnfollowUsers _
  | CAddAlbums _ | CDeleteAlbums _ =>
      Some (AJson (JBool false))
  end.

End Methods.

End UserClient.

(** ** Stand-ins for the collaborators, for concrete runs *)

Module Mock.

Definition refused : Exn := Thrown (JStr "ECONNREFUSED").

(** A client whose every call is rejected. *)
Definition offline : Client :=
  mkClient (fun _ => Throw refused) (fun _ _ => Throw refused) (fun _ => Throw refused).

(** A client whose HTTP layer answers every request with [payload]. *)
Definition serving (payload : JSValue) : Client :=
  mkClient (fun _ => Return payload)
           (fun _ _ => Return (JArr [JBool true]))
           (fun _ => Return None).

(** The imports with an error translator that never throws and returns
    nothing, and with tracks and albums that just keep their record. *)
Definition suppressing : Imports :=
  {| Track := JSValue;
     Track_new := fun d _ => Return d;
     Album := JSValue;
     Album_new := fun d _ => Return d;
     Client_new := fun _ => offline;
     handleError := fun _ => Return JUndefined |}.

(** The same with a translator that wraps and throws every error. *)
Definition raising : Imports :=
  {| Track := JSValue;
     Track_new := fun d _ => Return d;
     Album := JSValue;
     Album_new := fun d _ => Return d;
     Client_new := fun _ => offline;
     handleError := fun e => Throw (UnexpectedError e) |}.

(** The body of the scenario: [GET /me] for Alice. *)
Definition alice : JSValue :=
  JObj [("id", JStr "u1");
        ("display_name", JStr "Alice");
        ("followers", JObj [("total", JNum 5)]);
        ("images", JArr []);
        ("external_urls", JObj []);
        ("href", JStr "h");
        ("uri", JStr "spotify:user:u1")].

(** A fresh user client on a given client, nothing sent yet. *)
Definition fresh {imports : Imports} (c : Client) : UserClient.State :=
  UserClient.mkState (UserClient.constructor (inr c)) [].

(** An artist as a list endpoint delivers it, and the full record the
    artist getter finds under the same id. *)
Definition partial_record : JSValue :=
  JObj [("id", JStr "a1"); ("name", JStr "Old name")].

Definition full_record : JSValue :=
  JObj [("id", JStr "a1"); ("name", JStr "New name");
        ("popularity", JNum 70); ("followers", JObj [("total", JNum 9)]);
        ("genres", JArr [JStr "jazz"])].

Definition refreshed : Artist :=
  mkArtist full_record offline JUndefined JUndefined (JStr "a1") (JStr "New name")
           JUndefined JUndefined (JArr []) false
           (JNum 9) (JArr [JStr "jazz"]) (JNum 70).

Definition catalogue : Client :=
  mkClient (fun _ => Return full_record)
           (fun _ _ => Return (JArr [JBool true]))
           (fun _ => Return (Some refreshed)).

Definition stale : Artist :=
  mkArtist partial_record catalogue JUndefined JUndefined (JStr "a1") (JStr "Old name")
           JUndefined JUndefined (JArr []) true
           JUndefined JUndefined JUndefined.

End Mock.

(** ** Further stand-ins *)

Module Fixture.

(** A page of two records, as a list endpoint receives it. *)
Definition page : JSValue :=
  JObj [("limit", JNum 2); ("offset", JNum 0); ("total", JNum 7);
        ("items", JArr [Mock.partial_record; Mock.full_record])].

(** A page one element of which is [null]. *)
Definition torn_page : JSValue :=
  JObj [("limit", JNum 2); ("offset", JNum 0); ("total", JNum 7);
        ("items", JArr [Mock.partial_record; JNull])].

(** A profile without [followers]. *)
Definition bare_profile : JSValue :=
  JObj [("id", JStr "u1"); ("display_name", JStr "Alice"); ("country", JStr "DE")].

(** A client whose HTTP layer rejects the requests to [bad] and answers
    every other request with [payload]. *)
Definition failing_at (bad : string) (payload : JSValue) : Client :=
  mkClient (fun req => if String.eqb (path req) bad
                       then Throw Mock.refused
                       else Return payload)
           (fun _ _ => Return (JArr [JBool true]))
           (fun _ => Return None).

(** A client whose playlist manager answers with [answer]. *)
Definition answering (answer : JSValue) : Client :=
  mkClient (fun _ => Throw Mock.refused)
           (fun _ _ => Return answer)
           (fun _ => Throw Mock.refused).

End Fixture.

(** ** Vocabulary of the statements *)

(** A body that leaves the instance as it found it, however it ends. *)
Definition keeps_this {A : Type} (m : UserClient.M A) : Prop :=
  forall s, UserClient.this (snd (m s)) = UserClient.this s.

(** The request of [followPlaylist(id, ...)] with a given [public]. *)
Definition follow_playlist_request (id : string) (public : JSValue) : Request :=
  mkRequest ("/playlists/" ++ id ++ "/followers") (Some "PUT") None
            (Some [("Content-Type", JStr "application/json")])
            (Some [("public", public)]).

(** The request of the three methods that answer with an array of
    booleans. *)
Definition contains_request (path : string) (query : Obj) : Request :=
  mkRequest path None (Some query) None None.

(** The one request of the artist and user following endpoints. *)
Definition following_request (path : string) (method : option string)
           (type : string) (ids : list string) : Request :=
  mkRequest path method
            (Some [("type", JStr type); ("ids", JStr (String.concat "," ids))])
            None None.

(** The keys of an object, in order. *)
Definition keys (o : Obj) : list string := map fst o.

(** A value one can read a property from: anything but [undefined] and
    [null]. *)
Definition readable (v : JSValue) : bool :=
  match v with
  | JUndefined | JNull => false
  | JBool _ | JNum _ | JStr _ | JArr _ | JObj _ => true
  end.

(** A body that hands exactly [reqs] to the HTTP layer, however it ends. *)
Definition sends {A : Type} (m : UserClient.M A) (reqs : list Request) : Prop :=
  forall s, UserClient.sent (snd (m s)) = (UserClient.sent s ++ reqs)%list.

(** A body that leaves the [client] of the instance in place. *)
Definition keeps_client {A : Type} (m : UserClient.M A) : Prop :=
  forall s, UserClient.client (UserClient.this (snd (m s)))
            = UserClient.client (UserClient.this s).

(** The endpoint table: the requests a call hands to [client.util.fetch]. *)
Definition request_of (call : UserClient.Call) : list Request :=
  match call with
  | UserClient.CInfo =>
      [mkRequest "/me" None None None None]
  | UserClient.CGetTopTracks options =>
      [mkRequest "/me/top/tracks" None
                 (Some (match options with Some o => o | None => [] end)) None None]
  | UserClient.CGetTopArtists options =>
      [mkRequest "/me/top/artists" None
                 (Some (match options with Some o => o | None => [] end)) None None]
  | UserClient.CFollowPlaylist id options =>
      [mkRequest ("/playlists/" ++ id ++ "/followers") (Some "PUT") None
                 (Some [("Content-Type", JStr "application/json")])
                 (Some [("public",
                         js_or (member "public"
                                       (match options with
                                        | Some o => o
                                        | None => [("public", JBool true)]
                                        end))
                               (JBool true))])]
  | UserClient.CUnfollowPlaylist id =>
      [mkRequest ("/playlists/" ++ id ++ "/followers") (Some "DELETE") None None None]
  | UserClient.CFollowsPlaylist _ => []
  | UserClient.CGetFollowingArtists options =>
      [mkRequest "/me/following" None
                 (Some (obj_set "type" (JStr "artist") (spread options))) None None]
  | UserClient.CFollowArtists ids =>
      [mkRequest "/me/following" (Some "PUT")
                 (Some [("type", JStr "artist"); ("ids", JStr (join ids))]) None None]
  | UserClient.CUnfollowArtists ids =>
      [mkRequest "/me/following" (Some "DELETE")
                 (Some [("type", JStr "artist"); ("ids", JStr (join ids))]) None None]
  | UserClient.CFollowUsers ids =>
      [mkRequest "/me/following" (Some "PUT")
                 (Some [("type", JStr "user"); ("ids", JStr (join ids))]) None None]
  | UserClient.CUnfollowUsers ids =>
      [mkRequest "/me/following" (Some "DELETE")
                 (Some [("type", JStr "user"); ("ids", JStr (join ids))]) None None]
  | UserClient.CFollowsArtists ids =>
      [mkRequest "/me/following/contains" None
                 (Some [("type", JStr "artist"); ("ids", JStr (join ids))]) None None]
  | UserClient.CFollowsUsers ids =>
      [mkRequest "/me/following/contains" None
                 (Some [("type", JStr "user"); ("ids", JStr (join ids))]) None None]
  | UserClient.CGetAlbums options =>
      [mkRequest "/me/albums" None options None None]
  | UserClient.CAddAlbums ids =>
      [mkRequest "/me/albums" (Some "PUT") (Some [("ids", JStr (join ids))]) None None]
  | UserClient.CDeleteAlbums ids =>
      [mkRequest "/me/albums" (Some "DELETE") (Some [("ids", JStr (join ids))]) None None]
  | UserClient.CHasAlbums ids =>
      [mkRequest "/me/albums/contains" None (Some [("ids", JStr (join ids))]) None None]
  end.

(** The profile [info] leaves when every assignment of its body has run on
    the object [props], [tf] being what [followers.total] read. *)
Definition profile_of (c : Client) (props : Obj) (tf : JSValue) : UserClient.t :=
  UserClient.mk c
                (member "display_name" props)
                (js_or (member "country" props) (JStr "unknown"))
                (js_or (member "email" props) (JStr "unknown"))
                (member "external_urls" props)
                tf
                (member "href" props)
                (member "id" props)
                (member "images" props)
                (js_or (member "product" props) (JStr "unknown"))
                (member "uri" props).

(** A translator that never throws and always returns a falsy value. *)
Definition quiet (imports : Imports) : Prop :=
  forall e, exists v, handleError e = Return v /\ truthy v = false.

(** The envelope a list endpoint builds from the object [props] once its
    items are constructed. *)
Definition page_of {imports : Imports} (props : Obj) (its : list Item) : Paging :=
  mkPaging (member "limit" props) (member "offset" props) (member "total" props) its.

(** The [ids] query parameter of a request, if it has one. *)
Definition ids_param (req : Request) : option JSValue :=
  match params req with
  | Some q => lookup "ids" q
  | None => None
  end.

(** The calls that take a list of ids. *)
Definition with_ids (ids : list string) : list UserClient.Call :=
  [UserClient.CFollowArtists ids; UserClient.CUnfollowArtists ids;
   UserClient.CFollowUsers ids; UserClient.CUnfollowUsers ids;
   UserClient.CFollowsArtists ids; UserClient.CFollowsUsers ids;
   UserClient.CAddAlbums ids; UserClient.CDeleteAlbums ids;
   UserClient.CHasAlbums ids].

(** [g] applied to what [o] returns. *)
Definition then_wrap {A B : Type} (g : A -> B) (o : Outcome A) : Outcome B :=
  match o with
  | Return a => Return (g a)
  | Throw e => Throw e
  end.

(** The entity a list endpoint builds from one element of [items]. *)
Definition item_of {imports : Imports} (call : UserClient.Call) (c : Client)
           (x : JSValue) : Outcome Item :=
  match call with
  | UserClient.CGetTopTracks _ => then_wrap ITrack (Track_new x c)
  | UserClient.CGetAlbums _ => then_wrap IAlbum (Album_new x c)
  | _ => then_wrap IArtist (Artist.constructor x c)
  end.

(** Where the page is in the response of a list endpoint: under [artists]
    for [getFollowingArtists], the response itself for the others. *)
Definition page_in (call : UserClient.Call) (resp : JSValue) : JSValue :=
  match call with
  | UserClient.CGetFollowingArtists _ =>
      match getProp resp "artists" with
      | Return v => v
      | Throw _ => JUndefined
      end
  | _ => resp
  end.

(** What [handleError(e) || zero] gives. *)
Definition translated {imports : Imports} (e : Exn) : Outcome UserClient.Answer :=
  match handleError e with
  | Return v => Return (if truthy v then UserClient.AJson v else UserClient.APaging UserClient.zero_paging)
  | Throw e' => Throw e'
  end.

(** * Properties *)

(** ** Small runs *)

Example stale_is_constructed :
  Artist.constructor Mock.partial_record Mock.catalogue = Return Mock.stale.
Proof. reflexivity. Qed.

Example refreshed_is_constructed :
  Artist.constructor Mock.full_record Mock.offline = Return Mock.refreshed.
Proof. reflexivity. Qed.

Example join_three : join ["a"; "b"; "c"] = "a,b,c".
Proof. reflexivity. Qed.

Example spread_overrides :
  obj_set "type" (JStr "artist") (spread (Some [("limit", JNum 5); ("type", JStr "user")]))
  = [("limit", JNum 5); ("type", JStr "artist")].
Proof. reflexivity. Qed.

(** ** The Artist structure *)

Section ArtistFacts.

Variable c : Client.

(** The branch taken on a record without the key. *)
Lemma constructor_simplified (props : Obj) :
  has_key "popularity" props = false ->
  Artist.constructor (JObj props) c =
  Return (mkArtist (JObj props) c
                   (member "external_urls" props) (member "href" props)
                   (member "id" props) (member "name" props)
                   (member "type" props) (member "uri" props)
                   (js_or (member "images" props) (JArr [])) true
                   JUndefined JUndefined JUndefined).
Proof.
  intros Hkey. unfold Artist.constructor. cbn.
  rewrite Hkey. reflexivity.
Qed.

(** The branch taken on a record with the key, once [followers] can be
    read from. *)
Lemma constructor_full (props : Obj) (tf : JSValue) :
  has_key "popularity" props = true ->
  getProp (member "followers" props) "total" = Return tf ->
  Artist.constructor (JObj props) c =
  Return (mkArtist (JObj props) c
                   (member "external_urls" props) (member "href" props)
                   (member "id" props) (member "name" props)
                   (member "type" props) (member "uri" props)
                   (js_or (member "images" props) (JArr [])) false
                   tf (member "genres" props) (member "popularity" props)).
Proof.
  intros Hkey Htotal. unfold Artist.constructor. cbn.
  rewrite Hkey. cbn. rewrite Htotal. reflexivity.
Qed.

(** With the key and without [followers] no artist is built. *)
Lemma constructor_full_throws (props : Obj) :
  has_key "popularity" props = true ->
  member "followers" props = JUndefined ->
  exists msg, Artist.constructor (JObj props) c = Throw (TypeError msg).
Proof.
  intros Hkey Hf. unfold Artist.constructor. cbn.
  rewrite Hkey. cbn. rewrite Hf. cbn. eauto.
Qed.

End ArtistFacts.

(** C3, as stated, fails: a record that has the key [popularity] and no
    [followers] makes the constructor throw on [data.followers.total], so no
    Artist with [simplified === false] is constructed from it. *)
Lemma C3_popularity_without_followers_throws :
  has_key "popularity" [("id", JStr "a1"); ("popularity", JNum 70)] = true /\
  Artist.constructor (JObj [("id", JStr "a1"); ("popularity", JNum 70)]) Mock.offline
  = Throw (TypeError "Cannot read properties of undefined (reading 'total')") /\
  ~ (exists a, Artist.constructor (JObj [("id", JStr "a1"); ("popularity", JNum 70)])
                                  Mock.offline = Return a
               /\ Artist.simplified a = false).
Proof.
  split; [reflexivity | split; [reflexivity |]].
  intros [a [Hbuilt _]]. discriminate Hbuilt.
Qed.

(** C3 (amended): for every raw record with the key [popularity] whose
    [followers] value is neither [undefined] nor [null] (so that
    [followers.total] can be read), the constructed Artist has
    [simplified === false], [totalFollowers] equal to [followers.total],
    and [genres] and [popularity] equal to the record's; for every raw
    record without the key [popularity] the constructed Artist has
    [simplified === true] and the three fields [undefined].  The presence of
    the key alone decides the branch. *)
Theorem C3_popularity_key_decides_the_shape (props : Obj) (c : Client) :
  (has_key "popularity" props = true ->
   forall tf, getProp (member "followers" props) "total" = Return tf ->
   exists a, Artist.constructor (JObj props) c = Return a
             /\ Artist.simplified a = false
             /\ Artist.totalFollowers a = tf
             /\ Artist.genres a = member "genres" props
             /\ Artist.popularity a = member "popularity" props)
  /\
  (has_key "popularity" props = false ->
   exists a, Artist.constructor (JObj props) c = Return a
             /\ Artist.simplified a = true
             /\ Artist.totalFollowers a = JUndefined
             /\ Artist.genres a = JUndefined
             /\ Artist.popularity a = JUndefined).
Proof.
  split.
  - intros Hkey tf Htotal.
    eexists. split; [apply constructor_full; eassumption |].
    repeat split.
  - intros Hkey.
    eexists. split; [apply constructor_simplified; assumption |].
    repeat split.
Qed.

Lemma C3_popularity_key_decides_the_shape_witness :
  (has_key "popularity"
           [("id", JStr "a1"); ("name", JStr "New name");
            ("popularity", JNum 70); ("followers", JObj [("total", JNum 9)]);
            ("genres", JArr [JStr "jazz"])] = true
   /\ getProp (member "followers"
                      [("id", JStr "a1"); ("name", JStr "New name");
                       ("popularity", JNum 70); ("followers", JObj [("total", JNum 9)]);
                       ("genres", JArr [JStr "jazz"])]) "total" = Return (JNum 9)
   /\ exists a, Artist.constructor Mock.full_record Mock.offline = Return a
                /\ Artist.simplified a = false
                /\ Artist.totalFollowers a = JNum 9
                /\ Artist.genres a = JArr [JStr "jazz"]
                /\ Artist.popularity a = JNum 70)
  /\
  (has_key "popularity" [("id", JStr "a1"); ("name", JStr "Old name")] = false
   /\ exists a, Artist.constructor Mock.partial_record Mock.offline = Return a
                /\ Artist.simplified a = true
                /\ Artist.totalFollowers a = JUndefined
                /\ Artist.genres a = JUndefined
                /\ Artist.popularity a = JUndefined).
Proof.
  split.
  - split; [reflexivity | split; [reflexivity |]].
    apply (proj1 (C3_popularity_key_decides_the_shape
                    [("id", JStr "a1"); ("name", JStr "New name");
                     ("popularity", JNum 70); ("followers", JObj [("total", JNum 9)]);
                     ("genres", JArr [JStr "jazz"])] Mock.offline));
      reflexivity.
  - split; [reflexivity |].
    apply (proj2 (C3_popularity_key_decides_the_shape
                    [("id", JStr "a1"); ("name", JStr "Old name")] Mock.offline));
      reflexivity.
Defined.

(** C2, as stated, fails: [fetch()] on an artist built from a partial
    record resolves to the artist the getter found, and the entity it was
    called on still has every old field value. *)
Lemma C2_fetch_keeps_the_stale_fields :
  snd (Artist.fetch Mock.stale) = Return (Some Mock.refreshed) /\
  Artist.name (fst (Artist.fetch Mock.stale)) = JStr "Old name" /\
  Artist.name Mock.refreshed = JStr "New name" /\
  Artist.simplified (fst (Artist.fetch Mock.stale)) = true /\
  Artist.simplified Mock.refreshed = false /\
  fst (Artist.fetch Mock.stale) <> Mock.refreshed.
Proof.
  repeat split; try reflexivity.
  cbn. unfold Mock.stale, Mock.refreshed. intros Heq. discriminate Heq.
Qed.

(** C2 (amended): for every artist, [fetch()] calls the artist getter of the
    entity's client with the entity's own id and resolves to (or rejects
    with) whatever that getter yields; the entity it was called on is left
    as it was, with all its field values. *)
Theorem C2_fetch_asks_by_own_id_and_leaves_the_entity (a : Artist) :
  snd (Artist.fetch a) = artists_get (Artist.client a) (Artist.id a) /\
  fst (Artist.fetch a) = a.
Proof. split; reflexivity. Qed.

(** ** The user client: what a method does to the instance and the network *)

Section Frame.

Import UserClient.

Lemma keeps_ret {A : Type} (a : A) : keeps_this (ret a).
Proof. intros s. reflexivity. Qed.

Lemma keeps_throw {A : Type} (e : Exn) : keeps_this (throw (A := A) e).
Proof. intros s. reflexivity. Qed.

Lemma keeps_lift {A : Type} (o : Outcome A) : keeps_this (lift o).
Proof. intros s. reflexivity. Qed.

Lemma keeps_get_this : keeps_this get_this.
Proof. intros s. reflexivity. Qed.

Lemma keeps_fetch (req : Request) : keeps_this (fetch req).
Proof. intros s. reflexivity. Qed.

Lemma keeps_bind {A B : Type} (m : M A) (k : A -> M B) :
  keeps_this m -> (forall a, keeps_this (k a)) -> keeps_this (bind m k).
Proof.
  intros Hm Hk s. cbn.
  specialize (Hm s). destruct (m s) as [[a | e] s']; cbn in *.
  - rewrite Hk. exact Hm.
  - exact Hm.
Qed.

Lemma keeps_try_catch {A : Type} (body : M A) (handler : Exn -> M A) :
  keeps_this body -> (forall e, keeps_this (handler e)) ->
  keeps_this (try_catch body handler).
Proof.
  intros Hb Hh s. unfold try_catch.
  specialize (Hb s). destruct (body s) as [[a | e] s']; cbn in *.
  - exact Hb.
  - rewrite Hh. exact Hb.
Qed.

Lemma keeps_or_fallback {imports : Imports} (fb : Answer) (e : Exn) :
  keeps_this (or_fallback fb e).
Proof.
  unfold or_fallback. apply keeps_bind.
  - apply keeps_lift.
  - intros v. apply keeps_ret.
Qed.

End Frame.

(** Applies the frame rules through a method body. *)
Ltac frame_steps :=
  repeat first
    [ apply keeps_try_catch
    | apply keeps_bind
    | apply keeps_or_fallback
    | apply keeps_fetch
    | apply keeps_lift
    | apply keeps_get_this
    | apply keeps_ret
    | apply keeps_throw
    | intro ].

Section Requests.

Import UserClient.
Context {imports : Imports}.

(** A [try] around one request and a constant result: the outcome and the
    log, whatever the HTTP layer and the translator do. *)
Lemma one_request_then (req : Request) (k : JSValue -> Answer) (fb : Answer) (s : State) :
  try_catch (r <- fetch req ;; ret (k r)) (or_fallback fb) s =
  (match util_fetch (client (this s)) req with
   | Return r => Return (k r)
   | Throw e =>
       match handleError e with
       | Return v => Return (if truthy v then AJson v else fb)
       | Throw e' => Throw e'
       end
   end,
   mkState (this s) (sent s ++ [req])).
Proof.
  unfold try_catch, or_fallback, fetch, lift. cbn.
  destruct (util_fetch (client (this s)) req) as [r | e]; [reflexivity |].
  destruct (handleError e) as [v | e']; reflexivity.
Qed.

(** A [try] whose first step is a request that fails: nothing of the rest
    of the body runs, and the [catch] decides. *)
Lemma failed_request_then (req : Request) (k : JSValue -> M Answer)
      (fb : Answer) (e : Exn) (s : State) :
  util_fetch (client (this s)) req = Throw e ->
  try_catch (r <- fetch req ;; k r) (or_fallback fb) s =
  (match handleError e with
   | Return v => Return (if truthy v then AJson v else fb)
   | Throw e' => Throw e'
   end,
   mkState (this s) (sent s ++ [req])).
Proof.
  intros Hfail. unfold try_catch, or_fallback, fetch, lift. cbn.
  rewrite Hfail.
  destruct (handleError e) as [v | e']; reflexivity.
Qed.

End Requests.

(** ** The claims about the user client *)

Section UserClientFacts.

Import UserClient.
Context {imports : Imports}.

(** C1: [followPlaylist(id)] sends [public: true], as claimed; and
    [followPlaylist(id, {public: false})] sends [public: true] as well,
    because the body is [options.public || true]: the claimed
    [public: false] is never sent. *)
Theorem C1_followPlaylist_sends_public_true_even_when_false_is_asked
        (id : string) (s : State) :
  sent (snd (followPlaylist id None s))
  = (sent s ++ [follow_playlist_request id (JBool true)])%list
  /\
  sent (snd (followPlaylist id (Some [("public", JBool false)]) s))
  = (sent s ++ [follow_playlist_request id (JBool true)])%list.
Proof.
  unfold followPlaylist. split; rewrite one_request_then; reflexivity.
Qed.

(** C4: when the request a list method hands to the HTTP layer fails with
    [e] (whatever other requests would do) and the error translator returns
    nothing for [e] (a falsy value, such as [undefined] or [null]), the
    method resolves to the envelope
    [{limit: 0, offset: 0, total: 0, items: []}]; this holds for each of
    [getTopTracks], [getTopArtists], [getFollowingArtists] and
    [getAlbums]. *)
Theorem C4_list_methods_fall_back_to_the_zero_envelope
        (options : option Obj) (s : State) (e : Exn) (v : JSValue) :
  handleError e = Return v ->
  truthy v = false ->
  (util_fetch (client (this s))
              (mkRequest "/me/top/tracks" None
                         (Some (match options with Some o => o | None => [] end))
                         None None)
   = Throw e ->
   fst (getTopTracks options s)
   = Return (APaging (mkPaging (JNum 0) (JNum 0) (JNum 0) [])))
  /\
  (util_fetch (client (this s))
              (mkRequest "/me/top/artists" None
                         (Some (match options with Some o => o | None => [] end))
                         None None)
   = Throw e ->
   fst (getTopArtists options s)
   = Return (APaging (mkPaging (JNum 0) (JNum 0) (JNum 0) [])))
  /\
  (util_fetch (client (this s))
              (mkRequest "/me/following" None
                         (Some (obj_set "type" (JStr "artist") (spread options)))
                         None None)
   = Throw e ->
   fst (getFollowingArtists options s)
   = Return (APaging (mkPaging (JNum 0) (JNum 0) (JNum 0) [])))
  /\
  (util_fetch (client (this s)) (mkRequest "/me/albums" None options None None)
   = Throw e ->
   fst (getAlbums options s)
   = Return (APaging (mkPaging (JNum 0) (JNum 0) (JNum 0) []))).
Proof.
  intros Hquiet Hfalsy.
  unfold getTopTracks, getTopArtists, getFollowingArtists, getAlbums.
  repeat split; intros Hfail;
    rewrite (failed_request_then _ _ _ e _ Hfail), Hquiet, Hfalsy; reflexivity.
Qed.

(** [info] when the request fails: the [catch] wraps the error and throws,
    without asking the translator. *)
Lemma info_rethrows (s : State) (e : Exn) :
  util_fetch (client (this s)) (mkRequest "/me" None None None None) = Throw e ->
  info s = (Throw (UnexpectedError e),
            mkState (this s) (sent s ++ [mkRequest "/me" None None None None])).
Proof.
  intros Hfail. unfold info, try_catch, fetch, throw. cbn.
  rewrite Hfail. reflexivity.
Qed.

(** [followsPlaylist] has no [try]: what [playlists.userFollows] throws
    comes out as it is. *)
Lemma followsPlaylist_propagates (id : string) (s : State) (e : Exn) :
  playlists_userFollows (client (this s)) id (UserClient.id (this s)) = Throw e ->
  followsPlaylist id s = (Throw e, s).
Proof.
  intros Hfail. unfold followsPlaylist, get_this, lift. cbn.
  rewrite Hfail. reflexivity.
Qed.

(** Every method with a fallback, when its own request fails. *)
Lemma perform_on_failure (call : Call) (fb : Answer) (s : State) (e : Exn) :
  typed_fallback call = Some fb ->
  (forall req, In req (request_of call) -> util_fetch (client (this s)) req = Throw e) ->
  fst (perform call s) =
  match handleError e with
  | Return v => Return (if truthy v then AJson v else fb)
  | Throw e' => Throw e'
  end.
Proof.
  intros Hfb Hfail.
  destruct call; cbn in Hfb; try discriminate Hfb;
    injection Hfb as <-;
    specialize (Hfail _ (or_introl eq_refl));
    cbn [perform];
    unfold getTopTracks, getTopArtists, followPlaylist, unfollowPlaylist,
      getFollowingArtists, followArtists, unfollowArtists, followUsers,
      unfollowUsers, followsArtists, followsUsers, getAlbums, addAlbums,
      deleteAlbums, hasAlbums;
    rewrite (failed_request_then _ _ _ e _ Hfail);
    reflexivity.
Qed.

(** C5 (amended): for every method with a [catch] of the form
    [handleError(e) || fallback] (all but [info] and [followsPlaylist])
    and every error [e] with which the request of the method fails, the
    method passes [e] to the error translator: it throws what the
    translator throws, returns the translator's value when that is truthy,
    and otherwise returns its typed fallback ([false], [[]] or the
    zero-valued paging envelope).  [info] instead catches the error of its
    request [GET /me] and always throws [UnexpectedError] wrapping it,
    whatever the translator would do; [followsPlaylist] has no handler of
    its own and lets what [playlists.userFollows] throws through. *)
Theorem C5_errors_go_through_the_translator_except_in_info
        (s : State) (e : Exn) :
  (forall call fb,
      typed_fallback call = Some fb ->
      (forall req, In req (request_of call) ->
                   util_fetch (client (this s)) req = Throw e) ->
      fst (perform call s) =
      match handleError e with
      | Return v => Return (if truthy v then AJson v else fb)
      | Throw e' => Throw e'
      end)
  /\
  (util_fetch (client (this s)) (mkRequest "/me" None None None None) = Throw e ->
   fst (perform CInfo s) = Throw (UnexpectedError e))
  /\
  (forall id,
      playlists_userFollows (client (this s)) id (UserClient.id (this s)) = Throw e ->
      fst (perform (CFollowsPlaylist id) s) = Throw e).
Proof.
  split; [| split].
  - intros call fb Hfb Hfail. apply perform_on_failure; assumption.
  - intros Hfail. cbn [perform]. rewrite (info_rethrows s e Hfail).
    reflexivity.
  - intros id Hfail. cbn [perform].
    rewrite (followsPlaylist_propagates id s e Hfail). reflexivity.
Qed.

(** C6: when the HTTP layer answers [GET /me] with Alice's record,
    [info()] resolves to the client itself, with [name === 'Alice'],
    [totalFollowers === 5] and, [country] being absent from the record,
    [country === 'unknown']. *)
Theorem C6_info_reads_the_profile_of_alice (s : State) :
  util_fetch (client (this s)) (mkRequest "/me" None None None None)
  = Return Mock.alice ->
  fst (info s) = Return (AThis (this (snd (info s))))
  /\ name (this (snd (info s))) = JStr "Alice"
  /\ totalFollowers (this (snd (info s))) = JNum 5
  /\ country (this (snd (info s))) = JStr "unknown".
Proof.
  intros Hme. unfold info, try_catch, fetch, lift, assign, get_this. cbn.
  rewrite Hme. cbn. repeat split.
Qed.

(** C7 (amended): each of [followsArtists], [followsUsers] and
    [hasAlbums] resolves to the decoded body of its one request, as the
    HTTP layer delivers it: the array has the length and the order of the
    ids exactly when the remote answer has.  When that request fails and
    the translator returns nothing, the result is the empty array,
    whatever the ids. *)
Theorem C7_boolean_arrays_are_the_response_as_delivered
        (ids : list string) (s : State) :
  ((forall r,
       util_fetch (client (this s))
                  (contains_request "/me/following/contains"
                                    [("type", JStr "artist"); ("ids", JStr (join ids))])
       = Return r ->
       fst (followsArtists ids s) = Return (AJson r))
   /\
   (forall e v,
       util_fetch (client (this s))
                  (contains_request "/me/following/contains"
                                    [("type", JStr "artist"); ("ids", JStr (join ids))])
       = Throw e ->
       handleError e = Return v ->
       truthy v = false ->
       fst (followsArtists ids s) = Return (AJson (JArr []))))
  /\
  ((forall r,
       util_fetch (client (this s))
                  (contains_request "/me/following/contains"
                                    [("type", JStr "user"); ("ids", JStr (join ids))])
       = Return r ->
       fst (followsUsers ids s) = Return (AJson r))
   /\
   (forall e v,
       util_fetch (client (this s))
                  (contains_request "/me/following/contains"
                                    [("type", JStr "user"); ("ids", JStr (join ids))])
       = Throw e ->
       handleError e = Return v ->
       truthy v = false ->
       fst (followsUsers ids s) = Return (AJson (JArr []))))
  /\
  ((forall r,
       util_fetch (client (this s))
                  (contains_request "/me/albums/contains" [("ids", JStr (join ids))])
       = Return r ->
       fst (hasAlbums ids s) = Return (AJson r))
   /\
   (forall e v,
       util_fetch (client (this s))
                  (contains_request "/me/albums/contains" [("ids", JStr (join ids))])
       = Throw e ->
       handleError e = Return v ->
       truthy v = false ->
       fst (hasAlbums ids s) = Return (AJson (JArr [])))).
Proof.
  unfold followsArtists, followsUsers, hasAlbums, contains_request.
  repeat split;
    first [ intros r Hr; rewrite one_request_then, Hr; reflexivity
          | intros e v Hfail Hquiet Hfalsy;
            rewrite one_request_then, Hfail, Hquiet, Hfalsy; reflexivity ].
Qed.

(** C8: for every list of ids, each of the six following endpoints hands
    exactly one request to the HTTP layer, fixed by the ids alone: the ids
    joined with commas in the query parameter [ids], and the query
    parameter [type] equal to ['artist'] for [followArtists],
    [unfollowArtists] and [followsArtists] and to ['user'] for
    [followUsers], [unfollowUsers] and [followsUsers]. *)
Theorem C8_following_requests_join_the_ids_and_tag_the_type
        (ids : list string) (s : State) :
  sent (snd (followArtists ids s))
  = (sent s ++ [following_request "/me/following" (Some "PUT") "artist" ids])%list
  /\ sent (snd (unfollowArtists ids s))
     = (sent s ++ [following_request "/me/following" (Some "DELETE") "artist" ids])%list
  /\ sent (snd (followsArtists ids s))
     = (sent s ++ [following_request "/me/following/contains" None "artist" ids])%list
  /\ sent (snd (followUsers ids s))
     = (sent s ++ [following_request "/me/following" (Some "PUT") "user" ids])%list
  /\ sent (snd (unfollowUsers ids s))
     = (sent s ++ [following_request "/me/following" (Some "DELETE") "user" ids])%list
  /\ sent (snd (followsUsers ids s))
     = (sent s ++ [following_request "/me/following/contains" None "user" ids])%list.
Proof.
  unfold followArtists, unfollowArtists, followsArtists,
    followUsers, unfollowUsers, followsUsers.
  repeat split; rewrite one_request_then; reflexivity.
Qed.

(** Every method but [info] is built from steps that leave the instance
    alone. *)
Lemma perform_keeps_this (call : Call) :
  call <> CInfo -> keeps_this (perform call).
Proof.
  intros Hcall. destruct call; [contradiction Hcall; reflexivity | ..];
    cbn [perform];
    unfold getTopTracks, getTopArtists, followPlaylist, unfollowPlaylist,
      followsPlaylist, getFollowingArtists, followArtists, unfollowArtists,
      followUsers, unfollowUsers, followsArtists, followsUsers, getAlbums,
      addAlbums, deleteAlbums, hasAlbums;
    frame_steps.
Qed.

(** [info] on an object without [country], as far as [country] goes. *)
Lemma info_defaults_country (s : State) (props : Obj) :
  util_fetch (client (this s)) (mkRequest "/me" None None None None)
  = Return (JObj props) ->
  has_key "country" props = false ->
  country (this (snd (info s))) = JStr "unknown".
Proof.
  intros Hme Hkey.
  assert (Hcountry : member "country" props = JUndefined).
  { unfold has_key in Hkey. unfold member.
    destruct (lookup "country" props); [discriminate Hkey | reflexivity]. }
  unfold info, try_catch, fetch, lift, assign, get_this, throw. cbn.
  rewrite Hme. cbn. rewrite Hcountry.
  destruct (member "followers" props); reflexivity.
Qed.

End UserClientFacts.

(** ** Objects, [join] and [map] *)

Section ObjectFacts.

Lemma lookup_absent (k : string) (o : Obj) :
  ~ In k (keys o) -> lookup k o = None.
Proof.
  induction o as [| [k' v'] o IH]; intros Hout; [reflexivity |].
  cbn in *. destruct (String.eqb_spec k k') as [-> | Hne].
  - exfalso. apply Hout. now left.
  - apply IH. intros Hin. apply Hout. now right.
Qed.

Lemma lookup_present (k : string) (o : Obj) :
  In k (keys o) -> exists v, lookup k o = Some v.
Proof.
  induction o as [| [k' v'] o IH]; intros Hin; [contradiction |].
  cbn in *. destruct (String.eqb_spec k k') as [-> | Hne].
  - eauto.
  - destruct Hin as [Heq | Hin]; [congruence | exact (IH Hin)].
Qed.

Lemma obj_set_absent (k : string) (v : JSValue) (o : Obj) :
  ~ In k (keys o) -> obj_set k v o = (o ++ [(k, v)])%list.
Proof.
  induction o as [| [k' v'] o IH]; intros Hout; [reflexivity |].
  cbn in *. destruct (String.eqb_spec k k') as [-> | Hne].
  - exfalso. apply Hout. now left.
  - f_equal. apply IH. intros Hin. apply Hout. now right.
Qed.

Lemma obj_set_present (k : string) (v : JSValue) (o : Obj) :
  In k (keys o) -> keys (obj_set k v o) = keys o.
Proof.
  induction o as [| [k' v'] o IH]; intros Hin; [contradiction |].
  cbn in *. destruct (String.eqb_spec k k') as [-> | Hne]; [reflexivity |].
  cbn. f_equal. apply IH. destruct Hin as [Heq | Hin]; [congruence | exact Hin].
Qed.

Lemma keys_obj_set_in (k k' : string) (v : JSValue) (o : Obj) :
  In k' (keys (obj_set k v o)) -> k' = k \/ In k' (keys o).
Proof.
  induction o as [| [k0 v0] o IH]; cbn.
  - intros [Heq | []]. now left.
  - destruct (String.eqb_spec k k0) as [-> | Hne]; cbn.
    + intros [Heq | Hin]; right; [now left | now right].
    + intros [Heq | Hin]; [right; now left |].
      destruct (IH Hin) as [Heq | Hin']; [now left | right; now right].
Qed.

Lemma obj_set_nodup (k : string) (v : JSValue) (o : Obj) :
  NoDup (keys o) -> NoDup (keys (obj_set k v o)).
Proof.
  induction o as [| [k0 v0] o IH]; cbn; intros Hnd.
  - constructor; [intros [] | constructor].
  - inversion Hnd as [| ? ? Hout Hrest]; subst.
    destruct (String.eqb_spec k k0) as [-> | Hne]; cbn.
    + constructor; assumption.
    + constructor; [| exact (IH Hrest)].
      intros Hin. destruct (keys_obj_set_in _ _ _ _ Hin) as [Heq | Hin'];
        [congruence | contradiction].
Qed.

(** Reading back after [o[k2] = v]: the key written answers [v], every
    other key answers what it answered before; and an object whose keys are
    distinct keeps them distinct. *)
Lemma obj_set_then_lookup (k1 k2 : string) (v : JSValue) (o : Obj) :
  lookup k1 (obj_set k2 v o) = (if String.eqb k1 k2 then Some v else lookup k1 o)
  /\ (NoDup (keys o) -> NoDup (keys (obj_set k2 v o))).
Proof.
  split; [| apply obj_set_nodup].
  induction o as [| [k0 v0] o IH]; cbn.
  - destruct (String.eqb k1 k2); reflexivity.
  - destruct (String.eqb_spec k2 k0) as [-> | Hne]; cbn.
    + destruct (String.eqb k1 k0); reflexivity.
    + destruct (String.eqb_spec k1 k0) as [-> | Hne1].
      * destruct (String.eqb_spec k0 k2) as [Heq | _]; [congruence | reflexivity].
      * exact IH.
Qed.

Lemma spread_from (acc o : Obj) :
  NoDup (keys (acc ++ o)) ->
  fold_left (fun a kv => obj_set (fst kv) (snd kv) a) o acc = (acc ++ o)%list.
Proof.
  revert acc. induction o as [| [k v] o IH]; intros acc Hnd; cbn.
  - now rewrite app_nil_r.
  - assert (Hout : ~ In k (keys acc)).
    { unfold keys in *. rewrite map_app in Hnd. cbn in Hnd.
      apply NoDup_remove_2 in Hnd. intros Hin. apply Hnd.
      apply in_or_app. now left. }
    rewrite (obj_set_absent k v acc Hout).
    rewrite IH; rewrite <- app_assoc; [reflexivity | exact Hnd].
Qed.

Lemma spread_nodup_from (acc o : Obj) :
  NoDup (keys acc) ->
  NoDup (keys (fold_left (fun a kv => obj_set (fst kv) (snd kv) a) o acc)).
Proof.
  revert acc. induction o as [| [k v] o IH]; intros acc Hnd; cbn; [exact Hnd |].
  apply IH. apply obj_set_nodup. exact Hnd.
Qed.

(** [{...o}] never has a key twice, and on an object whose keys are
    distinct it is that object again, key by key in the same order;
    spreading [undefined] gives the empty object. *)
Lemma spread_copies_an_object (o : Obj) :
  NoDup (keys (spread (Some o)))
  /\ (NoDup (keys o) -> spread (Some o) = o)
  /\ spread None = [].
Proof.
  split; [| split; [| reflexivity]].
  - apply spread_nodup_from. constructor.
  - intros Hnd. unfold spread. rewrite spread_from; [reflexivity | exact Hnd].
Qed.

Lemma string_app_assoc (a b c : string) : ((a ++ b) ++ c = a ++ (b ++ c))%string.
Proof. induction a as [| ch a IH]; cbn; [reflexivity | now rewrite IH]. Qed.

(** [join] puts one comma between two non-empty parts and nowhere
    else: the join of [xs ++ ys] is the join of [xs], a comma, and the join
    of [ys]; a single id is joined to itself and no id to the empty
    string. *)
Lemma join_of_an_append (xs ys : list string) :
  (xs <> [] -> ys <> [] -> join (xs ++ ys) = join xs ++ "," ++ join ys)
  /\ (forall x, join [x] = x)
  /\ join [] = "".
Proof.
  split; [| split; reflexivity].
  intros Hxs Hys. unfold join.
  induction xs as [| x xs IH]; [contradiction Hxs; reflexivity |].
  destruct xs as [| x' xs].
  - destruct ys as [| y ys]; [contradiction Hys; reflexivity | reflexivity].
  - change (String.concat "," ((x :: x' :: xs) ++ ys))
      with (x ++ "," ++ String.concat "," ((x' :: xs) ++ ys)).
    rewrite IH by discriminate.
    change (String.concat "," (x :: x' :: xs))
      with (x ++ "," ++ String.concat "," (x' :: xs)).
    now rewrite !string_app_assoc.
Qed.

Lemma mapM_returns {A B : Type} (f : A -> Outcome B) (xs : list A) (ys : list B) :
  mapM f xs = Return ys <-> Forall2 (fun x y => f x = Return y) xs ys.
Proof.
  revert ys. induction xs as [| x xs IH]; intros ys; cbn.
  - split.
    + intros Heq. injection Heq as <-. constructor.
    + intros Hall. inversion Hall. reflexivity.
  - split.
    + destruct (f x) as [y | e] eqn:Hx; [| discriminate].
      destruct (mapM f xs) as [ys' | e] eqn:Hrest; [| discriminate].
      intros Heq. injection Heq as <-.
      constructor; [exact Hx | now apply IH].
    + intros Hall. inversion Hall as [| ? y ? ys' Hx Hrest]; subst.
      rewrite Hx. apply IH in Hrest. rewrite Hrest. reflexivity.
Qed.

Lemma mapM_throws {A B : Type} (f : A -> Outcome B) (xs : list A) :
  Exists (fun x => exists e, f x = Throw e) xs -> exists e, mapM f xs = Throw e.
Proof.
  induction xs as [| x xs IH]; intros Hbad; [inversion Hbad |].
  cbn. destruct (f x) as [y | e] eqn:Hx; [| eauto].
  inversion Hbad as [? ? [e He] | ? ? Hrest]; subst; [congruence |].
  destruct (IH Hrest) as [e He]. rewrite He. eauto.
Qed.

End ObjectFacts.

(** ** What every method does to the log and to the client *)

Section LogRules.

Import UserClient.

Lemma sends_ret {A : Type} (a : A) : sends (ret a) [].
Proof. intros s. cbn. now rewrite app_nil_r. Qed.

Lemma sends_throw {A : Type} (e : Exn) : sends (throw (A := A) e) [].
Proof. intros s. cbn. now rewrite app_nil_r. Qed.

Lemma sends_lift {A : Type} (o : Outcome A) : sends (lift o) [].
Proof. intros s. cbn. now rewrite app_nil_r. Qed.

Lemma sends_get_this : sends get_this [].
Proof. intros s. cbn. now rewrite app_nil_r. Qed.

Lemma sends_assign (f : t -> t) : sends (assign f) [].
Proof. intros s. cbn. now rewrite app_nil_r. Qed.

Lemma sends_fetch (req : Request) : sends (fetch req) [req].
Proof. intros s. reflexivity. Qed.

(** After a first step only silent steps: the log is the first step's,
    whether or not the rest runs. *)
Lemma sends_bind {A B : Type} (m : M A) (k : A -> M B) (reqs : list Request) :
  sends m reqs -> (forall a, sends (k a) []) -> sends (bind m k) reqs.
Proof.
  intros Hm Hk s. cbn.
  specialize (Hm s). destruct (m s) as [[a | e] s']; cbn in *.
  - rewrite Hk, app_nil_r. exact Hm.
  - exact Hm.
Qed.

Lemma sends_try_catch {A : Type} (body : M A) (handler : Exn -> M A)
      (reqs : list Request) :
  sends body reqs -> (forall e, sends (handler e) []) ->
  sends (try_catch body handler) reqs.
Proof.
  intros Hb Hh s. unfold try_catch.
  specialize (Hb s). destruct (body s) as [[a | e] s']; cbn in *.
  - exact Hb.
  - rewrite Hh, app_nil_r. exact Hb.
Qed.

Lemma sends_or_fallback {imports : Imports} (fb : Answer) (e : Exn) :
  sends (or_fallback fb e) [].
Proof.
  unfold or_fallback. apply sends_bind; [apply sends_lift | intros v; apply sends_ret].
Qed.

Lemma client_ret {A : Type} (a : A) : keeps_client (ret a).
Proof. intros s. reflexivity. Qed.

Lemma client_throw {A : Type} (e : Exn) : keeps_client (throw (A := A) e).
Proof. intros s. reflexivity. Qed.

Lemma client_lift {A : Type} (o : Outcome A) : keeps_client (lift o).
Proof. intros s. reflexivity. Qed.

Lemma client_get_this : keeps_client get_this.
Proof. intros s. reflexivity. Qed.

Lemma client_fetch (req : Request) : keeps_client (fetch req).
Proof. intros s. reflexivity. Qed.

(** An assignment to a profile field: none of the setters is for
    [client]. *)
Lemma client_assign (f : t -> t) :
  (forall u, client (f u) = client u) -> keeps_client (assign f).
Proof. intros Hf s. cbn. apply Hf. Qed.

Lemma client_bind {A B : Type} (m : M A) (k : A -> M B) :
  keeps_client m -> (forall a, keeps_client (k a)) -> keeps_client (bind m k).
Proof.
  intros Hm Hk s. cbn.
  specialize (Hm s). destruct (m s) as [[a | e] s']; cbn in *.
  - rewrite Hk. exact Hm.
  - exact Hm.
Qed.

Lemma client_try_catch {A : Type} (body : M A) (handler : Exn -> M A) :
  keeps_client body -> (forall e, keeps_client (handler e)) ->
  keeps_client (try_catch body handler).
Proof.
  intros Hb Hh s. unfold try_catch.
  specialize (Hb s). destruct (body s) as [[a | e] s']; cbn in *.
  - exact Hb.
  - rewrite Hh. exact Hb.
Qed.

Lemma client_or_fallback {imports : Imports} (fb : Answer) (e : Exn) :
  keeps_client (or_fallback fb e).
Proof.
  unfold or_fallback. apply client_bind; [apply client_lift | intros v; apply client_ret].
Qed.

End LogRules.

(** Walks a method body with the rules for the log. *)
Ltac log_steps :=
  repeat first
    [ apply sends_try_catch
    | apply sends_or_fallback
    | apply sends_fetch
    | apply sends_lift
    | apply sends_get_this
    | apply sends_assign
    | apply sends_ret
    | apply sends_throw
    | apply sends_bind
    | intro ].

(** Walks a method body with the rules for the client. *)
Ltac client_steps :=
  repeat first
    [ apply client_try_catch
    | apply client_or_fallback
    | apply client_fetch
    | apply client_lift
    | apply client_get_this
    | apply client_assign; intro; reflexivity
    | apply client_ret
    | apply client_throw
    | apply client_bind
    | intro ].

Ltac unfold_methods :=
  unfold UserClient.info, UserClient.getTopTracks, UserClient.getTopArtists,
    UserClient.followPlaylist, UserClient.unfollowPlaylist,
    UserClient.followsPlaylist, UserClient.getFollowingArtists,
    UserClient.followArtists, UserClient.unfollowArtists,
    UserClient.followUsers, UserClient.unfollowUsers,
    UserClient.followsArtists, UserClient.followsUsers, UserClient.getAlbums,
    UserClient.addAlbums, UserClient.deleteAlbums, UserClient.hasAlbums.

Section EveryMethod.

Import UserClient.
Context {imports : Imports}.

Lemma perform_sends (call : Call) : sends (perform call) (request_of call).
Proof.
  destruct call; cbn [perform request_of]; unfold_methods; log_steps.
Qed.

(** X1: every call hands to the HTTP layer exactly the requests of the
    endpoint table, after those already sent: one request for every method
    except [followsPlaylist], which calls [util.fetch] not at all, and this
    whatever the responses are, whether the body fails half way and
    whatever the translator does; nothing is sent twice. *)
Theorem X1_every_call_sends_its_one_request (call : Call) (s : State) :
  sent (snd (perform call s)) = (sent s ++ request_of call)%list
  /\ length (request_of call) = (match call with CFollowsPlaylist _ => 0 | _ => 1 end).
Proof.
  split; [apply perform_sends | destruct call; reflexivity].
Qed.

(** X2: no call replaces the [client] of the instance, [info] included. *)
Theorem X2_no_call_replaces_the_client (call : Call) (s : State) :
  client (this (snd (perform call s))) = client (this s).
Proof.
  revert s. change (keeps_client (perform call)).
  destruct call; cbn [perform]; unfold_methods; client_steps.
Qed.

End EveryMethod.

(** ** What can be thrown, and what a successful request gives *)

Section Escapes.

Import UserClient.
Context {imports : Imports}.

Lemma guarded_throw_is_the_translators (body : M Answer) (fb : Answer) (s : State) (e' : Exn) :
  fst (try_catch body (or_fallback fb) s) = Throw e' ->
  exists e, handleError e = Throw e'.
Proof.
  unfold try_catch, or_fallback, lift. cbn.
  destruct (body s) as [[a | e] s1]; cbn; [discriminate |].
  destruct (handleError e) as [v | e1] eqn:Htr; cbn; [discriminate |].
  intros Heq. injection Heq as <-. eauto.
Qed.

Lemma guarded_outcome (body : M Answer) (fb : Answer) (s : State) :
  fst (try_catch body (or_fallback fb) s)
  = match fst (body s) with
    | Return a => Return a
    | Throw e =>
        match handleError e with
        | Return v => Return (if truthy v then AJson v else fb)
        | Throw e' => Throw e'
        end
    end.
Proof.
  unfold try_catch, or_fallback, lift. cbn.
  destruct (body s) as [[a | e] s1]; cbn; [reflexivity |].
  destruct (handleError e); reflexivity.
Qed.

Lemma guarded_quiet_fallback (body : M Answer) (fb : Answer) (s : State) :
  quiet imports ->
  (exists a, fst (body s) = Return a /\ fst (try_catch body (or_fallback fb) s) = Return a)
  \/ ((exists e, fst (body s) = Throw e) /\ fst (try_catch body (or_fallback fb) s) = Return fb).
Proof.
  intros Hquiet. unfold try_catch, or_fallback, lift. cbn.
  destruct (body s) as [[a | e] s1]; cbn.
  - left. eauto.
  - right. split; [eauto |].
    destruct (Hquiet e) as [v [Hv Hfalsy]]. rewrite Hv. cbn. now rewrite Hfalsy.
Qed.

Lemma rethrowing_try {A : Type} (body : M A) (k : A -> M Answer) (s : State) (e' : Exn) :
  (forall a s1, exists r, fst (k a s1) = Return r) ->
  fst (bind (try_catch body (fun e => throw (UnexpectedError e))) k s) = Throw e' ->
  exists e, e' = UnexpectedError e.
Proof.
  intros Hk. unfold try_catch, throw. cbn.
  destruct (body s) as [[a | e] s1]; cbn.
  - destruct (Hk a s1) as [r Hr]. destruct (k a s1) as [[r' | e1] s2]; cbn in *;
      [discriminate | discriminate Hr].
  - intros Heq. injection Heq as <-. eauto.
Qed.

Lemma info_throw_is_wrapped (s : State) (e' : Exn) :
  fst (info s) = Throw e' -> exists e, e' = UnexpectedError e.
Proof.
  unfold info. apply rethrowing_try.
  intros a s1. eexists. reflexivity.
Qed.

Lemma followsPlaylist_throw (id : string) (s : State) (e' : Exn) :
  fst (followsPlaylist id s) = Throw e' ->
  playlists_userFollows (client (this s)) id (UserClient.id (this s)) = Throw e'
  \/ exists msg, e' = TypeError msg.
Proof.
  unfold followsPlaylist, get_this, lift. cbn.
  destruct (playlists_userFollows (client (this s)) id (UserClient.id (this s)))
    as [r | e] eqn:Hr; cbn.
  - destruct r as [| | b | n | str | xs | o]; cbn;
      try discriminate; try (intros Heq; injection Heq as <-; right; eauto).
    + destruct str; discriminate.
    + destruct xs; discriminate.
  - intros Heq. injection Heq as <-. now left.
Qed.

(** X3: what a call can throw.  A method with a fallback throws only what
    the error translator threw; [info] throws only an [UnexpectedError];
    [followsPlaylist] throws only what [playlists.userFollows] threw, or a
    [TypeError]. *)
Theorem X3_what_a_call_can_throw (call : Call) (s : State) (e' : Exn) :
  fst (perform call s) = Throw e' ->
  match call with
  | CInfo => exists e, e' = UnexpectedError e
  | CFollowsPlaylist id =>
      playlists_userFollows (client (this s)) id (UserClient.id (this s)) = Throw e'
      \/ exists msg, e' = TypeError msg
  | _ => exists e, handleError e = Throw e'
  end.
Proof.
  destruct call; cbn [perform];
    try apply info_throw_is_wrapped;
    try apply followsPlaylist_throw;
    unfold_methods; apply guarded_throw_is_the_translators.
Qed.

(** X4: the eight methods that answer [true] or [false] resolve to [true]
    as soon as the request does not fail: the response body is not looked
    at. *)
Theorem X4_a_request_that_succeeds_gives_true (call : Call) (s : State) :
  typed_fallback call = Some (AJson (JBool false)) ->
  (forall req, In req (request_of call) ->
               exists r, util_fetch (client (this s)) req = Return r) ->
  fst (perform call s) = Return (AJson (JBool true)).
Proof.
  intros Hfb Hok.
  destruct call; cbn in Hfb; try discriminate Hfb; cbn [perform]; unfold_methods;
    rewrite one_request_then;
    match goal with
    | |- fst (match util_fetch _ ?req with _ => _ end, _) = _ =>
        destruct (Hok req) as [r Hr]; [now left | rewrite Hr; reflexivity]
    end.
Qed.

(** X5: the body of [followPlaylist] never carries a falsy [public]:
    whatever options are passed, the request has [public] equal to the
    option when that is truthy and to [true] otherwise. *)
Theorem X5_followPlaylist_never_sends_a_falsy_public
        (id : string) (options : option Obj) (s : State) :
  exists v,
    sent (snd (followPlaylist id options s))
    = (sent s ++ [follow_playlist_request id v])%list
    /\ truthy v = true
    /\ (forall o, options = Some o ->
                  v = if truthy (member "public" o) then member "public" o else JBool true).
Proof.
  unfold followPlaylist. rewrite one_request_then. cbn [snd sent].
  eexists. split; [reflexivity | split].
  - unfold js_or. destruct (truthy (member "public" _)) eqn:Hp; [exact Hp | reflexivity].
  - intros o ->. reflexivity.
Qed.

End Escapes.

(** ** [info], step by step *)

Section Info.

Import UserClient.
Context {imports : Imports}.

Let me_request : Request := mkRequest "/me" None None None None.

(** All assignments run when the body is an object whose [followers] can
    be read from. *)
Lemma info_on_object (s : State) (props : Obj) (tf : JSValue) :
  util_fetch (client (this s)) me_request = Return (JObj props) ->
  getProp (member "followers" props) "total" = Return tf ->
  info s = (Return (AThis (profile_of (client (this s)) props tf)),
            mkState (profile_of (client (this s)) props tf) (sent s ++ [me_request])).
Proof.
  intros Hme Htotal. unfold info, try_catch, fetch, lift, assign, get_this, throw. cbn.
  unfold me_request in Hme. rewrite Hme. cbn. rewrite Htotal. reflexivity.
Qed.

(** The assignments before [followers.total] have run when that read
    throws. *)
Lemma info_on_object_without_followers (s : State) (props : Obj) (e : Exn) :
  util_fetch (client (this s)) me_request = Return (JObj props) ->
  getProp (member "followers" props) "total" = Throw e ->
  info s = (Throw (UnexpectedError e),
            mkState (mk (client (this s))
                        (member "display_name" props)
                        (js_or (member "country" props) (JStr "unknown"))
                        (js_or (member "email" props) (JStr "unknown"))
                        (member "external_urls" props)
                        (totalFollowers (this s))
                        (href (this s))
                        (member "id" props)
                        (images (this s))
                        (product (this s))
                        (uri (this s)))
                    (sent s ++ [me_request])).
Proof.
  intros Hme Htotal. unfold info, try_catch, fetch, lift, assign, get_this, throw. cbn.
  unfold me_request in Hme. rewrite Hme. cbn. rewrite Htotal. reflexivity.
Qed.

(** A body that is no object: nothing can be read from [undefined] and
    [null]; every property of another primitive or of an array reads as
    [undefined], [followers] too. *)
Lemma info_on_other_body (s : State) (data : JSValue) :
  util_fetch (client (this s)) me_request = Return data ->
  (forall props, data <> JObj props) ->
  exists e, fst (info s) = Throw (UnexpectedError e).
Proof.
  intros Hme Hshape. unfold info, try_catch, fetch, lift, assign, get_this, throw. cbn.
  unfold me_request in Hme. rewrite Hme.
  destruct data; cbn; eauto.
  exfalso. eapply Hshape. reflexivity.
Qed.

(** X6: [info] resolves exactly when the body of [GET /me] is an object
    whose [followers] is neither [undefined] nor [null]; it then resolves
    to the instance with every profile field taken from the body
    ([country], [email] and [product] replaced by ['unknown'] when falsy),
    so that no field keeps the value it had before the call. *)
Theorem X6_info_is_a_full_refresh (s : State) :
  (forall props tf,
      util_fetch (client (this s)) (mkRequest "/me" None None None None)
      = Return (JObj props) ->
      getProp (member "followers" props) "total" = Return tf ->
      fst (info s) = Return (AThis (profile_of (client (this s)) props tf))
      /\ this (snd (info s)) = profile_of (client (this s)) props tf)
  /\
  (forall a,
      fst (info s) = Return a ->
      exists props tf,
        util_fetch (client (this s)) (mkRequest "/me" None None None None)
        = Return (JObj props)
        /\ getProp (member "followers" props) "total" = Return tf
        /\ a = AThis (profile_of (client (this s)) props tf)).
Proof.
  split.
  - intros props tf Hme Htotal.
    rewrite (info_on_object s props tf Hme Htotal). split; reflexivity.
  - intros a Hret.
    destruct (util_fetch (client (this s)) me_request) as [data | e] eqn:Hme.
    + assert (Hobj : exists props, data = JObj props).
      { destruct data; eauto;
          (destruct (info_on_other_body s _ Hme) as [e He];
           [intros props; discriminate | rewrite He in Hret; discriminate Hret]). }
      destruct Hobj as [props ->].
      destruct (getProp (member "followers" props) "total") as [tf | e] eqn:Htotal.
      * exists props, tf. split; [exact Hme | split; [exact Htotal |]].
        rewrite (info_on_object s props tf Hme Htotal) in Hret.
        cbn in Hret. now injection Hret as <-.
      * rewrite (info_on_object_without_followers s props e Hme Htotal) in Hret.
        discriminate Hret.
    + rewrite (info_rethrows s e Hme) in Hret. discriminate Hret.
Qed.

(** X7: when the body of [GET /me] is an object whose [followers] cannot
    be read from, [info] throws [UnexpectedError] around the [TypeError],
    and the instance is left half written: [name], [country], [id],
    [email] and [externalUrls] are the new ones, [totalFollowers], [href],
    [images], [product] and [uri] are the old ones. *)
Theorem X7_info_without_followers_leaves_a_half_written_profile
        (s : State) (props : Obj) (e : Exn) :
  util_fetch (client (this s)) (mkRequest "/me" None None None None)
  = Return (JObj props) ->
  getProp (member "followers" props) "total" = Throw e ->
  fst (info s) = Throw (UnexpectedError e)
  /\ name (this (snd (info s))) = member "display_name" props
  /\ country (this (snd (info s))) = js_or (member "country" props) (JStr "unknown")
  /\ id (this (snd (info s))) = member "id" props
  /\ email (this (snd (info s))) = js_or (member "email" props) (JStr "unknown")
  /\ externalUrls (this (snd (info s))) = member "external_urls" props
  /\ totalFollowers (this (snd (info s))) = totalFollowers (this s)
  /\ href (this (snd (info s))) = href (this s)
  /\ images (this (snd (info s))) = images (this s)
  /\ product (this (snd (info s))) = product (this s)
  /\ uri (this (snd (info s))) = uri (this s).
Proof.
  intros Hme Htotal.
  rewrite (info_on_object_without_followers s props e Hme Htotal).
  repeat split.
Qed.

(** X8: when the request of [info] fails, or its body is [undefined] or
    [null], [info] throws [UnexpectedError] and has written nothing: the
    instance is as it was. *)
Theorem X8_info_writes_nothing_without_a_body (s : State) :
  (forall e,
      util_fetch (client (this s)) (mkRequest "/me" None None None None) = Throw e ->
      fst (info s) = Throw (UnexpectedError e) /\ this (snd (info s)) = this s)
  /\
  (forall data,
      util_fetch (client (this s)) (mkRequest "/me" None None None None) = Return data ->
      readable data = false ->
      (exists msg, fst (info s) = Throw (UnexpectedError (TypeError msg)))
      /\ this (snd (info s)) = this s).
Proof.
  split.
  - intros e Hme. rewrite (info_rethrows s e Hme). split; reflexivity.
  - intros data Hme Hnone.
    unfold info, try_catch, fetch, lift, assign, get_this, throw. cbn.
    rewrite Hme.
    destruct data; try discriminate Hnone; cbn; split; eauto.
Qed.

End Info.

(** ** Query parameters *)

Section Queries.

Import UserClient.
Context {imports : Imports}.

(** X9: the query of [getFollowingArtists] always has [type] equal to
    ['artist'], also when the options carry another [type]; it has no key
    twice; and every other option of a well-formed options object is passed
    on with its value. *)
Theorem X9_getFollowingArtists_forces_the_type (options : option Obj) (s : State) :
  exists q,
    sent (snd (getFollowingArtists options s))
    = (sent s ++ [mkRequest "/me/following" None (Some q) None None])%list
    /\ lookup "type" q = Some (JStr "artist")
    /\ NoDup (keys q)
    /\ (forall o k, options = Some o -> NoDup (keys o) -> k <> "type" ->
                    lookup k q = lookup k o).
Proof.
  exists (obj_set "type" (JStr "artist") (spread options)).
  split; [exact (perform_sends (CGetFollowingArtists options) s) | split; [| split]].
  - rewrite (proj1 (obj_set_then_lookup "type" "type" _ _)). reflexivity.
  - apply obj_set_nodup. destruct options as [o |]; [| constructor].
    apply (proj1 (spread_copies_an_object o)).
  - intros o k -> Hnd Hk.
    rewrite (proj1 (obj_set_then_lookup k "type" _ _)).
    destruct (String.eqb_spec k "type") as [Heq | _]; [contradiction |].
    now rewrite (proj1 (proj2 (spread_copies_an_object o)) Hnd).
Qed.

(** X10: each of the nine methods that take ids sends one request, with
    the ids in the one query parameter [ids], joined by [join]: no id gives
    the empty string (the request is sent all the same), one id gives that
    id, and a list made of two non-empty parts gives the two joins with one
    comma between. *)
Theorem X10_ids_travel_in_one_joined_parameter (ids : list string) (s : State) :
  Forall (fun call =>
            exists req,
              sent (snd (perform call s)) = (sent s ++ [req])%list
              /\ ids_param req = Some (JStr (join ids)))
         (with_ids ids)
  /\ join [] = ""
  /\ (forall x, join [x] = x)
  /\ (forall xs ys, xs <> [] -> ys <> [] -> join (xs ++ ys) = join xs ++ "," ++ join ys).
Proof.
  split; [| split; [reflexivity | split; [reflexivity |]]].
  - unfold with_ids.
    repeat (constructor;
            [eexists; split; [exact (perform_sends _ s) | reflexivity] |]).
    constructor.
  - intros xs ys. apply (proj1 (join_of_an_append xs ys)).
Qed.

End Queries.

(** ** [followsPlaylist] *)

Section FollowsPlaylist.

Import UserClient.
Context {imports : Imports}.

(** X11: [followsPlaylist(id)] asks [playlists.userFollows] with the
    playlist id and the [id] field of the instance as it is at that moment,
    and leaves the state alone.  When the answer is an array it resolves to
    the first element if that is truthy and to [false] otherwise, so to
    [false] on the empty array; when the answer is [undefined] or [null] it
    throws a [TypeError]. *)
Theorem X11_followsPlaylist_reads_the_first_answer (id : string) (s : State) :
  (forall xs,
      playlists_userFollows (client (this s)) id (UserClient.id (this s)) = Return (JArr xs) ->
      followsPlaylist id s
      = (Return (AJson (match xs with
                        | x :: _ => if truthy x then x else JBool false
                        | [] => JBool false
                        end)), s))
  /\
  (forall r,
      playlists_userFollows (client (this s)) id (UserClient.id (this s)) = Return r ->
      readable r = false ->
      exists msg, followsPlaylist id s = (Throw (TypeError msg), s)).
Proof.
  split.
  - intros xs Hr. unfold followsPlaylist, get_this, lift. cbn. rewrite Hr.
    destruct xs as [| x xs]; reflexivity.
  - intros r Hr Hnone. unfold followsPlaylist, get_this, lift. cbn. rewrite Hr.
    destruct r; try discriminate Hnone; cbn; eauto.
Qed.

End FollowsPlaylist.

(** ** The list endpoints *)

Section Pages.

Import UserClient.
Context {imports : Imports}.

Lemma mapM_then_wrap {A B C : Type} (f : A -> Outcome B) (g : B -> C) (xs : list A) :
  mapM (fun x => then_wrap g (f x)) xs = then_wrap (map g) (mapM f xs).
Proof.
  induction xs as [| x xs IH]; [reflexivity |].
  cbn. destruct (f x) as [y | e]; cbn; [| reflexivity].
  cbn in IH. rewrite IH. destruct (mapM f xs); reflexivity.
Qed.

Lemma js_map_then_wrap {B C : Type} (f : JSValue -> Outcome B) (g : B -> C) (items : JSValue) :
  js_map items (fun x => then_wrap g (f x)) = then_wrap (map g) (js_map items f).
Proof.
  destruct items; try reflexivity. apply mapM_then_wrap.
Qed.

(** A list endpoint on a response: the page, or the translation of what
    went wrong. *)
Lemma list_call_on_response (call : Call) (s : State) (resp : JSValue) :
  typed_fallback call = Some (APaging zero_paging) ->
  (forall req, In req (request_of call) -> util_fetch (client (this s)) req = Return resp) ->
  match page_in call resp with
  | JObj props =>
      fst (perform call s)
      = match js_map (member "items" props) (item_of call (client (this s))) with
        | Return its => Return (APaging (page_of props its))
        | Throw e => translated e
        end
  | _ => exists msg, fst (perform call s) = translated (TypeError msg)
  end.
Proof.
  intros Hfb Hresp.
  destruct call; cbn in Hfb; try discriminate Hfb;
    (specialize (Hresp _ (or_introl eq_refl));
     cbn [perform page_in]; unfold item_of; unfold_methods;
     rewrite guarded_outcome;
     unfold fetch, lift, get_this, translated; cbn -[then_wrap];
     rewrite Hresp).
  - destruct resp; cbn -[then_wrap]; try (eexists; reflexivity).
    rewrite (js_map_then_wrap (fun x => Track_new x (client (this s))) ITrack).
    destruct (js_map (member "items" props) _); reflexivity.
  - destruct resp; cbn -[then_wrap]; try (eexists; reflexivity).
    rewrite (js_map_then_wrap (fun x => Artist.constructor x (client (this s))) IArtist).
    destruct (js_map (member "items" props) _); reflexivity.
  - destruct resp; cbn -[then_wrap]; try (eexists; reflexivity).
    destruct (member "artists" props) as [| | b | n | str | xs | page];
      cbn -[then_wrap]; try (eexists; reflexivity).
    rewrite (js_map_then_wrap (fun x => Artist.constructor x (client (this s))) IArtist).
    destruct (js_map (member "items" page) _); reflexivity.
  - destruct resp; cbn -[then_wrap]; try (eexists; reflexivity).
    rewrite (js_map_then_wrap (fun x => Album_new x (client (this s))) IAlbum).
    destruct (js_map (member "items" props) _); reflexivity.
Qed.

Lemma translated_quiet (e : Exn) :
  quiet imports -> translated e = Return (APaging zero_paging).
Proof.
  intros Hquiet. unfold translated.
  destruct (Hquiet e) as [v [Hv Hfalsy]]. now rewrite Hv, Hfalsy.
Qed.

(** X12: a list endpoint whose response carries a page (an object, under
    [artists] for [getFollowingArtists]) with an array [items], each
    element of which its entity constructor accepts, resolves to the
    envelope with [limit], [offset] and [total] copied from the page and
    one entity per element, in the order of the response. *)
Theorem X12_a_page_keeps_the_order_of_the_response
        (call : Call) (s : State) (resp : JSValue) (props : Obj)
        (xs : list JSValue) (its : list Item) :
  typed_fallback call = Some (APaging zero_paging) ->
  (forall req, In req (request_of call) -> util_fetch (client (this s)) req = Return resp) ->
  page_in call resp = JObj props ->
  member "items" props = JArr xs ->
  Forall2 (fun x it => item_of call (client (this s)) x = Return it) xs its ->
  fst (perform call s) = Return (APaging (page_of props its))
  /\ length its = length xs.
Proof.
  intros Hfb Hresp Hpage Hitems Hall.
  pose proof (list_call_on_response call s resp Hfb Hresp) as Hout.
  rewrite Hpage, Hitems in Hout. cbn [js_map] in Hout.
  rewrite (proj2 (mapM_returns _ xs its) Hall) in Hout.
  split; [exact Hout | symmetry; exact (Forall2_length Hall)].
Qed.

(** X13: with a translator that never throws and returns nothing, a list
    endpoint whose request succeeded resolves either to a whole page (the
    response carries a page with an array [items] and every element was
    accepted by the entity constructor) or to the zero-valued envelope;
    one element that the constructor rejects is enough for the zero-valued
    envelope: there is no partial page. *)
Theorem X13_a_page_is_whole_or_zero (call : Call) (s : State) (resp : JSValue) :
  quiet imports ->
  typed_fallback call = Some (APaging zero_paging) ->
  (forall req, In req (request_of call) -> util_fetch (client (this s)) req = Return resp) ->
  (fst (perform call s) = Return (APaging zero_paging)
   \/ exists props xs its,
       page_in call resp = JObj props
       /\ member "items" props = JArr xs
       /\ Forall2 (fun x it => item_of call (client (this s)) x = Return it) xs its
       /\ fst (perform call s) = Return (APaging (page_of props its)))
  /\
  (forall props xs,
      page_in call resp = JObj props ->
      member "items" props = JArr xs ->
      Exists (fun x => exists e, item_of call (client (this s)) x = Throw e) xs ->
      fst (perform call s) = Return (APaging zero_paging)).
Proof.
  intros Hquiet Hfb Hresp.
  pose proof (list_call_on_response call s resp Hfb Hresp) as Hout.
  split.
  - destruct (page_in call resp) as [| | b | n | str | ys | props];
      try (match type of Hout with
           | ex _ => destruct Hout as [msg Hmsg]; left; rewrite Hmsg;
                     now apply translated_quiet
           end).
    destruct (member "items" props) as [| | b | n | str | xs | o] eqn:Hitems;
      cbn [js_map] in Hout;
      try (left; rewrite Hout; now apply translated_quiet).
    destruct (mapM (item_of call (client (this s))) xs) as [its | e] eqn:Hbuild.
    + right. exists props, xs, its.
      split; [reflexivity | split; [exact Hitems | split; [| exact Hout]]].
      now apply mapM_returns.
    + left. rewrite Hout. now apply translated_quiet.
  - intros props xs Hpage Hitems Hbad.
    rewrite Hpage, Hitems in Hout. cbn [js_map] in Hout.
    destruct (mapM_throws _ xs Hbad) as [e He]. rewrite He in Hout.
    rewrite Hout. now apply translated_quiet.
Qed.

End Pages.

(** ** The Artist constructor on any value *)

Section ArtistShape.

Variable c : Client.

(** X14: [new Artist(data, client)] returns exactly when [data] is an array,
    or an object that either has no key [popularity] or has a [followers]
    that is neither [undefined] nor [null]; on every other value
    ([undefined], [null], a boolean, a number, a string, an object with
    [popularity] and without readable [followers]) it throws. *)
Theorem X14_when_the_artist_constructor_returns (data : JSValue) :
  (exists a, Artist.constructor data c = Return a)
  <->
  match data with
  | JObj props =>
      has_key "popularity" props = false \/ readable (member "followers" props) = true
  | JArr _ => True
  | JUndefined | JNull | JBool _ | JNum _ | JStr _ => False
  end.
Proof.
  destruct data as [| | b | n | str | xs | props]; cbn;
    try (split; [intros [a Ha]; discriminate Ha | intros []]).
  - split; [trivial | eauto].
  - unfold Artist.constructor. cbn.
    destruct (has_key "popularity" props) eqn:Hkey; cbn.
    + destruct (member "followers" props) eqn:Hf; cbn;
        (split; [intros [a Ha]; first [discriminate Ha | now right]
                | intros [Hno | Hyes]; first [discriminate | eauto]]).
    + split; [now left | eauto].
Qed.


End ArtistShape.

(** ** Concrete runs of the user client *)

(** The runs below use the quiet translator unless they say otherwise. *)
#[local] Existing Instance Mock.suppressing.

Lemma C4_list_methods_fall_back_to_the_zero_envelope_witness :
  handleError Mock.refused = Return JUndefined
  /\ truthy JUndefined = false
  /\ util_fetch (Fixture.failing_at "/me/top/tracks" JNull)
                (mkRequest "/me/top/artists" None (Some []) None None)
     = Return JNull
  /\ (util_fetch (Fixture.failing_at "/me/top/tracks" JNull)
                 (mkRequest "/me/top/tracks" None (Some []) None None)
      = Throw Mock.refused
      /\ fst (UserClient.getTopTracks None (Mock.fresh (Fixture.failing_at "/me/top/tracks" JNull)))
         = Return (UserClient.APaging (mkPaging (JNum 0) (JNum 0) (JNum 0) [])))
  /\ (util_fetch (Fixture.failing_at "/me/top/artists" JNull)
                 (mkRequest "/me/top/artists" None (Some []) None None)
      = Throw Mock.refused
      /\ fst (UserClient.getTopArtists None (Mock.fresh (Fixture.failing_at "/me/top/artists" JNull)))
         = Return (UserClient.APaging (mkPaging (JNum 0) (JNum 0) (JNum 0) [])))
  /\ (util_fetch (Fixture.failing_at "/me/following" JNull)
                 (mkRequest "/me/following" None (Some [("type", JStr "artist")]) None None)
      = Throw Mock.refused
      /\ fst (UserClient.getFollowingArtists None (Mock.fresh (Fixture.failing_at "/me/following" JNull)))
         = Return (UserClient.APaging (mkPaging (JNum 0) (JNum 0) (JNum 0) [])))
  /\ (util_fetch (Fixture.failing_at "/me/albums" JNull)
                 (mkRequest "/me/albums" None None None None)
      = Throw Mock.refused
      /\ fst (UserClient.getAlbums None (Mock.fresh (Fixture.failing_at "/me/albums" JNull)))
         = Return (UserClient.APaging (mkPaging (JNum 0) (JNum 0) (JNum 0) []))).
Proof.
  split; [reflexivity | split; [reflexivity | split; [reflexivity |]]].
  split; [| split; [| split]]; (split; [reflexivity |]).
  - apply (proj1 (C4_list_methods_fall_back_to_the_zero_envelope
                    (imports := Mock.suppressing)
                    None (Mock.fresh (Fixture.failing_at "/me/top/tracks" JNull))
                    Mock.refused JUndefined eq_refl eq_refl)).
    reflexivity.
  - apply (proj1 (proj2 (C4_list_methods_fall_back_to_the_zero_envelope
                    (imports := Mock.suppressing)
                    None (Mock.fresh (Fixture.failing_at "/me/top/artists" JNull))
                    Mock.refused JUndefined eq_refl eq_refl))).
    reflexivity.
  - apply (proj1 (proj2 (proj2 (C4_list_methods_fall_back_to_the_zero_envelope
                    (imports := Mock.suppressing)
                    None (Mock.fresh (Fixture.failing_at "/me/following" JNull))
                    Mock.refused JUndefined eq_refl eq_refl)))).
    reflexivity.
  - apply (proj2 (proj2 (proj2 (C4_list_methods_fall_back_to_the_zero_envelope
                    (imports := Mock.suppressing)
                    None (Mock.fresh (Fixture.failing_at "/me/albums" JNull))
                    Mock.refused JUndefined eq_refl eq_refl)))).
    reflexivity.
Defined.

(** C5, as stated, fails on [info]: with a translator that never throws
    and a request that fails, [followArtists] returns its fallback [false],
    and [info] throws [UnexpectedError] all the same: it returns no
    fallback value, and it throws although the configuration does not ask
    for it. *)
Lemma C5_info_throws_under_a_quiet_translator :
  (forall e, handleError e = Return JUndefined)
  /\ fst (UserClient.followArtists ["a1"]
                                   (Mock.fresh Mock.offline))
     = Return (UserClient.AJson (JBool false))
  /\ fst (UserClient.info (Mock.fresh Mock.offline))
     = Throw (UnexpectedError Mock.refused)
  /\ ~ (exists a, fst (UserClient.info
                                       (Mock.fresh Mock.offline)) = Return a).
Proof.
  split; [intros e; reflexivity | split; [reflexivity | split; [reflexivity |]]].
  intros [a Ha]. discriminate Ha.
Qed.

Lemma C5_errors_go_through_the_translator_except_in_info_witness :
  (UserClient.typed_fallback (UserClient.CAddAlbums ["b1"])
   = Some (UserClient.AJson (JBool false))
   /\ util_fetch (Fixture.failing_at "/me/albums" JNull)
                 (mkRequest "/me" None None None None)
      = Return JNull
   /\ (forall req, In req (request_of (UserClient.CAddAlbums ["b1"])) ->
                   util_fetch (UserClient.client
                                 (UserClient.this
                                    (Mock.fresh (Fixture.failing_at "/me/albums" JNull)))) req
                   = Throw Mock.refused)
   /\ fst (UserClient.perform (UserClient.CAddAlbums ["b1"])
                              (Mock.fresh (Fixture.failing_at "/me/albums" JNull)))
      = Return (UserClient.AJson (JBool false)))
  /\ (util_fetch (UserClient.client
                    (UserClient.this (Mock.fresh (Fixture.failing_at "/me" JNull))))
                 (mkRequest "/me" None None None None)
      = Throw Mock.refused
      /\ fst (UserClient.perform UserClient.CInfo
                                 (Mock.fresh (Fixture.failing_at "/me" JNull)))
         = Throw (UnexpectedError Mock.refused))
  /\ (playlists_userFollows
        (UserClient.client (UserClient.this (Mock.fresh Mock.offline)))
        "p1" (UserClient.id (UserClient.this (Mock.fresh Mock.offline)))
      = Throw Mock.refused
      /\ fst (UserClient.perform (UserClient.CFollowsPlaylist "p1")
                                 (Mock.fresh Mock.offline))
         = Throw Mock.refused).
Proof.
  assert (Hown : forall req, In req (request_of (UserClient.CAddAlbums ["b1"])) ->
                             util_fetch (UserClient.client
                                           (UserClient.this
                                              (Mock.fresh (Fixture.failing_at "/me/albums" JNull)))) req
                             = Throw Mock.refused).
  { intros req [<- | []]. reflexivity. }
  split; [| split].
  - split; [reflexivity | split; [reflexivity | split; [exact Hown |]]].
    apply (proj1 (C5_errors_go_through_the_translator_except_in_info
                    (imports := Mock.suppressing)
                    (Mock.fresh (Fixture.failing_at "/me/albums" JNull)) Mock.refused)
                 (UserClient.CAddAlbums ["b1"]) (UserClient.AJson (JBool false))).
    + reflexivity.
    + exact Hown.
  - split; [reflexivity |].
    apply (proj1 (proj2 (C5_errors_go_through_the_translator_except_in_info
                    (imports := Mock.suppressing)
                           (Mock.fresh (Fixture.failing_at "/me" JNull)) Mock.refused))).
    reflexivity.
  - split; [reflexivity |].
    apply (proj2 (proj2 (C5_errors_go_through_the_translator_except_in_info
                    (imports := Mock.suppressing)
                           (Mock.fresh Mock.offline) Mock.refused))).
    reflexivity.
Defined.

Lemma C6_info_reads_the_profile_of_alice_witness :
  util_fetch (UserClient.client (UserClient.this (Mock.fresh (Mock.serving Mock.alice))))
             (mkRequest "/me" None None None None)
  = Return Mock.alice
  /\ UserClient.name
       (UserClient.this
          (snd (UserClient.info
                                (Mock.fresh (Mock.serving Mock.alice)))))
     = JStr "Alice"
  /\ UserClient.totalFollowers
       (UserClient.this
          (snd (UserClient.info
                                (Mock.fresh (Mock.serving Mock.alice)))))
     = JNum 5
  /\ UserClient.country
       (UserClient.this
          (snd (UserClient.info
                                (Mock.fresh (Mock.serving Mock.alice)))))
     = JStr "unknown".
Proof.
  split; [reflexivity |].
  apply (C6_info_reads_the_profile_of_alice
           (Mock.fresh (Mock.serving Mock.alice))).
  reflexivity.
Defined.

(** C7, as stated, fails: for the one id [a1], with the request failing
    and the translator quiet, [followsArtists] resolves to the empty array,
    which has no boolean for [a1]; and for the two ids [b1], [b2], with an
    HTTP layer that answers [[true]], [hasAlbums] resolves to that one
    boolean. *)
Lemma C7_failed_request_gives_an_empty_array :
  (fst (UserClient.followsArtists ["a1"] (Mock.fresh Mock.offline))
   = Return (UserClient.AJson (JArr []))
   /\ ~ (exists bs : list bool,
            fst (UserClient.followsArtists ["a1"] (Mock.fresh Mock.offline))
            = Return (UserClient.AJson (JArr (map JBool bs)))
            /\ length bs = length ["a1"]))
  /\
  (fst (UserClient.hasAlbums ["b1"; "b2"] (Mock.fresh (Mock.serving (JArr [JBool true]))))
   = Return (UserClient.AJson (JArr [JBool true]))
   /\ ~ (exists bs : list bool,
            fst (UserClient.hasAlbums ["b1"; "b2"]
                                      (Mock.fresh (Mock.serving (JArr [JBool true]))))
            = Return (UserClient.AJson (JArr (map JBool bs)))
            /\ length bs = length ["b1"; "b2"])).
Proof.
  split; (split; [reflexivity |]); intros [bs [Hres Hlen]].
  - destruct bs as [| b bs]; [discriminate Hlen | discriminate Hres].
  - destruct bs as [| b [| b' [| b'' bs]]]; try discriminate Hlen.
    discriminate Hres.
Qed.

Lemma C7_boolean_arrays_are_the_response_as_delivered_witness :
  (util_fetch (UserClient.client
                 (UserClient.this (Mock.fresh (Mock.serving (JArr [JBool true; JBool false])))))
              (contains_request "/me/albums/contains" [("ids", JStr (join ["b1"; "b2"]))])
   = Return (JArr [JBool true; JBool false])
   /\ fst (UserClient.hasAlbums ["b1"; "b2"]
                                (Mock.fresh (Mock.serving (JArr [JBool true; JBool false]))))
      = Return (UserClient.AJson (JArr [JBool true; JBool false])))
  /\
  (util_fetch (UserClient.client
                 (UserClient.this
                    (Mock.fresh (Fixture.failing_at "/me/following/contains" JNull))))
              (contains_request "/me/following/contains"
                                [("type", JStr "artist"); ("ids", JStr (join ["a1"; "a2"]))])
   = Throw Mock.refused
   /\ util_fetch (Fixture.failing_at "/me/following/contains" JNull)
                 (mkRequest "/me" None None None None)
      = Return JNull
   /\ handleError Mock.refused = Return JUndefined
   /\ truthy JUndefined = false
   /\ fst (UserClient.followsArtists
             ["a1"; "a2"] (Mock.fresh (Fixture.failing_at "/me/following/contains" JNull)))
      = Return (UserClient.AJson (JArr []))
   /\ fst (UserClient.followsUsers
             ["a1"; "a2"] (Mock.fresh (Fixture.failing_at "/me/following/contains" JNull)))
      = Return (UserClient.AJson (JArr [])))
  /\
  (util_fetch (UserClient.client
                 (UserClient.this
                    (Mock.fresh (Fixture.failing_at "/me/albums/contains" JNull))))
              (contains_request "/me/albums/contains" [("ids", JStr (join ["b1"; "b2"]))])
   = Throw Mock.refused
   /\ fst (UserClient.hasAlbums
             ["b1"; "b2"] (Mock.fresh (Fixture.failing_at "/me/albums/contains" JNull)))
      = Return (UserClient.AJson (JArr []))).
Proof.
  split; [| split].
  - split; [reflexivity |].
    apply (proj1 (proj2 (proj2
             (C7_boolean_arrays_are_the_response_as_delivered
                    (imports := Mock.suppressing)
                ["b1"; "b2"]
                (Mock.fresh (Mock.serving (JArr [JBool true; JBool false]))))))).
    reflexivity.
  - split; [reflexivity | split; [reflexivity | split; [reflexivity | split; [reflexivity |]]]].
    split.
    + apply (proj2 (proj1
               (C7_boolean_arrays_are_the_response_as_delivered
                    (imports := Mock.suppressing)
                  ["a1"; "a2"]
                  (Mock.fresh (Fixture.failing_at "/me/following/contains" JNull))))
               Mock.refused JUndefined); reflexivity.
    + apply (proj2 (proj1 (proj2
               (C7_boolean_arrays_are_the_response_as_delivered
                    (imports := Mock.suppressing)
                  ["a1"; "a2"]
                  (Mock.fresh (Fixture.failing_at "/me/following/contains" JNull)))))
               Mock.refused JUndefined); reflexivity.
  - split; [reflexivity |].
    apply (proj2 (proj2 (proj2
             (C7_boolean_arrays_are_the_response_as_delivered
                    (imports := Mock.suppressing)
                ["b1"; "b2"]
                (Mock.fresh (Fixture.failing_at "/me/albums/contains" JNull)))))
             Mock.refused JUndefined); reflexivity.
Defined.

(** [info] does write: on a fresh client served Alice's record the name
    changes from the empty string. *)
Lemma info_writes_the_profile :
  UserClient.this (snd (UserClient.info (Mock.fresh (Mock.serving Mock.alice))))
  <> UserClient.this (Mock.fresh (Mock.serving Mock.alice)).
Proof.
  intros Heq. apply (f_equal UserClient.name) in Heq. discriminate Heq.
Qed.

(** With a translator that throws, a failed request makes the method throw
    what the translator throws. *)
Example followArtists_throws_under_a_raising_translator :
  fst (UserClient.followArtists (imports := Mock.raising) ["a1"]
         (Mock.fresh (imports := Mock.raising) Mock.offline))
  = Throw (UnexpectedError Mock.refused).
Proof. reflexivity. Qed.

(** C9: every method other than [info] leaves the instance, and so each of
    [name], [country], [email], [externalUrls], [totalFollowers], [href],
    [id], [images], [product] and [uri], exactly as it was, whatever the
    HTTP layer and the other collaborators return or throw; [info] is the
    one method that assigns to them. *)
Theorem C9_only_info_writes_the_profile :
  (forall (imports : Imports) (call : UserClient.Call) (s : UserClient.State),
      call <> UserClient.CInfo ->
      UserClient.this (snd (UserClient.perform call s)) = UserClient.this s)
  /\
  (exists (imports : Imports) (s : UserClient.State),
      UserClient.this (snd (UserClient.perform UserClient.CInfo s)) <> UserClient.this s).
Proof.
  split.
  - intros imports call s Hcall. apply perform_keeps_this. exact Hcall.
  - exists Mock.suppressing, (Mock.fresh (Mock.serving Mock.alice)).
    exact info_writes_the_profile.
Qed.

Lemma C9_only_info_writes_the_profile_witness :
  UserClient.CFollowPlaylist "p1" None <> UserClient.CInfo
  /\ UserClient.this
       (snd (UserClient.perform (UserClient.CFollowPlaylist "p1" None)
                                (Mock.fresh (Mock.serving Mock.alice))))
     = UserClient.this (Mock.fresh (Mock.serving Mock.alice)).
Proof.
  split; [discriminate |].
  apply (proj1 C9_only_info_writes_the_profile).
  discriminate.
Defined.

(** C10: right after construction, before any request, [name], [country],
    [uri], [id] and [href] are the empty string, [email] and [product] are
    ['unknown'], [totalFollowers] is [0], [externalUrls] is [{}] and
    [images] is [[]]; and once [info()] has received an object without
    [country], [country] is ['unknown'], not the empty string. *)
Theorem C10_constructor_defaults_and_the_country_asymmetry
        (imports : Imports) (token : string + Client) :
  (UserClient.name (UserClient.constructor token) = JStr ""
   /\ UserClient.country (UserClient.constructor token) = JStr ""
   /\ UserClient.uri (UserClient.constructor token) = JStr ""
   /\ UserClient.id (UserClient.constructor token) = JStr ""
   /\ UserClient.href (UserClient.constructor token) = JStr ""
   /\ UserClient.email (UserClient.constructor token) = JStr "unknown"
   /\ UserClient.product (UserClient.constructor token) = JStr "unknown"
   /\ UserClient.totalFollowers (UserClient.constructor token) = JNum 0
   /\ UserClient.externalUrls (UserClient.constructor token) = JObj []
   /\ UserClient.images (UserClient.constructor token) = JArr [])
  /\
  (forall (sent : list Request) (props : list (string * JSValue)),
      util_fetch (UserClient.client (UserClient.constructor token))
                 (mkRequest "/me" None None None None)
      = Return (JObj props) ->
      has_key "country" props = false ->
      UserClient.country
        (UserClient.this
           (snd (UserClient.info (UserClient.mkState (UserClient.constructor token) sent))))
      = JStr "unknown").
Proof.
  split.
  - repeat split.
  - intros sent props Hme Hkey.
    apply (info_defaults_country _ props); assumption.
Qed.

Lemma C10_constructor_defaults_and_the_country_asymmetry_witness :
  (util_fetch (UserClient.client (UserClient.constructor (inr (Mock.serving Mock.alice))))
              (mkRequest "/me" None None None None)
   = Return Mock.alice
   /\ has_key "country"
              [("id", JStr "u1"); ("display_name", JStr "Alice");
               ("followers", JObj [("total", JNum 5)]); ("images", JArr []);
               ("external_urls", JObj []); ("href", JStr "h");
               ("uri", JStr "spotify:user:u1")] = false)
  /\ UserClient.country (UserClient.constructor (inr (Mock.serving Mock.alice))) = JStr ""
  /\ UserClient.country
       (UserClient.this
          (snd (UserClient.info
                  (UserClient.mkState (UserClient.constructor (inr (Mock.serving Mock.alice)))
                                      []))))
     = JStr "unknown".
Proof.
  pose proof (C10_constructor_defaults_and_the_country_asymmetry
                Mock.suppressing (inr (Mock.serving Mock.alice)))
    as [[_ [Hcountry _]] Hinfo].
  split; [split; reflexivity | split; [exact Hcountry |]].
  apply (Hinfo [] [("id", JStr "u1"); ("display_name", JStr "Alice");
                   ("followers", JObj [("total", JNum 5)]); ("images", JArr []);
                   ("external_urls", JObj []); ("href", JStr "h");
                   ("uri", JStr "spotify:user:u1")]);
    reflexivity.
Defined.

(** ** Concrete runs of the further properties *)

Lemma suppressing_is_quiet : quiet Mock.suppressing.
Proof. intros e. exists JUndefined. split; reflexivity. Qed.

Lemma X3_what_a_call_can_throw_witness :
  fst (UserClient.perform (imports := Mock.raising) (UserClient.CAddAlbums ["b1"])
                          (Mock.fresh (imports := Mock.raising) Mock.offline))
  = Throw (UnexpectedError Mock.refused)
  /\ exists e, handleError (Imports := Mock.raising) e = Throw (UnexpectedError Mock.refused).
Proof.
  split; [reflexivity |].
  apply (X3_what_a_call_can_throw (imports := Mock.raising) (UserClient.CAddAlbums ["b1"])
                                   (Mock.fresh (imports := Mock.raising) Mock.offline)).
  reflexivity.
Defined.

Lemma X4_a_request_that_succeeds_gives_true_witness :
  UserClient.typed_fallback (UserClient.CUnfollowPlaylist "p1")
  = Some (UserClient.AJson (JBool false))
  /\ (forall req, In req (request_of (UserClient.CUnfollowPlaylist "p1")) ->
                  exists r, util_fetch (UserClient.client
                                          (UserClient.this (Mock.fresh (Mock.serving JNull)))) req
                            = Return r)
  /\ fst (UserClient.perform (UserClient.CUnfollowPlaylist "p1")
                             (Mock.fresh (Mock.serving JNull)))
     = Return (UserClient.AJson (JBool true)).
Proof.
  assert (Hok : forall req, In req (request_of (UserClient.CUnfollowPlaylist "p1")) ->
                            exists r, util_fetch (UserClient.client
                                                    (UserClient.this (Mock.fresh (Mock.serving JNull)))) req
                                      = Return r).
  { intros req _. exists JNull. reflexivity. }
  split; [reflexivity | split; [exact Hok |]].
  apply (X4_a_request_that_succeeds_gives_true (UserClient.CUnfollowPlaylist "p1")
                                                (Mock.fresh (Mock.serving JNull)));
    [reflexivity | exact Hok].
Defined.

Lemma X5_followPlaylist_never_sends_a_falsy_public_witness :
  exists v,
    UserClient.sent (snd (UserClient.followPlaylist "p1" (Some [("public", JNum 0)])
                                                    (Mock.fresh Mock.offline)))
    = [follow_playlist_request "p1" v]
    /\ truthy v = true
    /\ v = JBool true.
Proof.
  destruct (X5_followPlaylist_never_sends_a_falsy_public
              "p1" (Some [("public", JNum 0)]) (Mock.fresh Mock.offline))
    as [v [Hsent [Htruthy Hvalue]]].
  exists v. split; [exact Hsent | split; [exact Htruthy |]].
  exact (Hvalue [("public", JNum 0)] eq_refl).
Defined.

Lemma X6_info_is_a_full_refresh_witness :
  util_fetch (UserClient.client (UserClient.this (Mock.fresh (Mock.serving Mock.alice))))
             (mkRequest "/me" None None None None)
  = Return Mock.alice
  /\ getProp (JObj [("total", JNum 5)]) "total" = Return (JNum 5)
  /\ UserClient.this (snd (UserClient.info (Mock.fresh (Mock.serving Mock.alice))))
     = UserClient.mk (Mock.serving Mock.alice)
                     (JStr "Alice") (JStr "unknown") (JStr "unknown") (JObj []) (JNum 5)
                     (JStr "h") (JStr "u1") (JArr []) (JStr "unknown")
                     (JStr "spotify:user:u1").
Proof.
  split; [reflexivity | split; [reflexivity |]].
  apply (proj1 (X6_info_is_a_full_refresh (Mock.fresh (Mock.serving Mock.alice)))
               [("id", JStr "u1"); ("display_name", JStr "Alice");
                ("followers", JObj [("total", JNum 5)]); ("images", JArr []);
                ("external_urls", JObj []); ("href", JStr "h");
                ("uri", JStr "spotify:user:u1")]
               (JNum 5));
    reflexivity.
Defined.

Lemma X7_info_without_followers_leaves_a_half_written_profile_witness :
  util_fetch (UserClient.client
                (UserClient.this (Mock.fresh (Mock.serving Fixture.bare_profile))))
             (mkRequest "/me" None None None None)
  = Return Fixture.bare_profile
  /\ fst (UserClient.info (Mock.fresh (Mock.serving Fixture.bare_profile)))
     = Throw (UnexpectedError
                (TypeError "Cannot read properties of undefined (reading 'total')"))
  /\ UserClient.name
       (UserClient.this (snd (UserClient.info (Mock.fresh (Mock.serving Fixture.bare_profile)))))
     = JStr "Alice"
  /\ UserClient.country
       (UserClient.this (snd (UserClient.info (Mock.fresh (Mock.serving Fixture.bare_profile)))))
     = JStr "DE"
  /\ UserClient.product
       (UserClient.this (snd (UserClient.info (Mock.fresh (Mock.serving Fixture.bare_profile)))))
     = JStr "unknown"
  /\ UserClient.uri
       (UserClient.this (snd (UserClient.info (Mock.fresh (Mock.serving Fixture.bare_profile)))))
     = JStr "".
Proof.
  destruct (X7_info_without_followers_leaves_a_half_written_profile
              (Mock.fresh (Mock.serving Fixture.bare_profile))
              [("id", JStr "u1"); ("display_name", JStr "Alice"); ("country", JStr "DE")]
              (TypeError "Cannot read properties of undefined (reading 'total')")
              eq_refl eq_refl)
    as [Hthrow [Hname [Hcountry [_ [_ [_ [_ [_ [_ [Hproduct Huri]]]]]]]]]].
  split; [reflexivity | split; [exact Hthrow | split; [exact Hname |]]].
  split; [exact Hcountry | split; [exact Hproduct | exact Huri]].
Defined.

Lemma X8_info_writes_nothing_without_a_body_witness :
  (util_fetch (UserClient.client (UserClient.this (Mock.fresh Mock.offline)))
              (mkRequest "/me" None None None None)
   = Throw Mock.refused
   /\ UserClient.this (snd (UserClient.info (Mock.fresh Mock.offline)))
      = UserClient.this (Mock.fresh Mock.offline))
  /\
  (util_fetch (UserClient.client (UserClient.this (Mock.fresh (Mock.serving JNull))))
              (mkRequest "/me" None None None None)
   = Return JNull
   /\ readable JNull = false
   /\ UserClient.this (snd (UserClient.info (Mock.fresh (Mock.serving JNull))))
      = UserClient.this (Mock.fresh (Mock.serving JNull))).
Proof.
  split.
  - split; [reflexivity |].
    apply (proj1 (X8_info_writes_nothing_without_a_body (Mock.fresh Mock.offline))
                 Mock.refused).
    reflexivity.
  - split; [reflexivity | split; [reflexivity |]].
    apply (proj2 (X8_info_writes_nothing_without_a_body (Mock.fresh (Mock.serving JNull)))
                 JNull); reflexivity.
Defined.

Lemma X9_getFollowingArtists_forces_the_type_witness :
  NoDup (keys [("limit", JNum 5); ("type", JStr "user")])
  /\ "limit" <> "type"
  /\ exists q,
      UserClient.sent
        (snd (UserClient.getFollowingArtists
                (Some [("limit", JNum 5); ("type", JStr "user")]) (Mock.fresh Mock.offline)))
      = [mkRequest "/me/following" None (Some q) None None]
      /\ lookup "type" q = Some (JStr "artist")
      /\ lookup "limit" q = Some (JNum 5).
Proof.
  assert (Hnd : NoDup (keys [("limit", JNum 5); ("type", JStr "user")])).
  { repeat constructor; cbn; intros H; repeat destruct H as [H | H]; discriminate H || exact H. }
  assert (Hne : "limit" <> "type") by discriminate.
  split; [exact Hnd | split; [exact Hne |]].
  destruct (X9_getFollowingArtists_forces_the_type
              (Some [("limit", JNum 5); ("type", JStr "user")]) (Mock.fresh Mock.offline))
    as [q [Hsent [Htype [_ Hrest]]]].
  exists q. split; [exact Hsent | split; [exact Htype |]].
  exact (Hrest _ "limit" eq_refl Hnd Hne).
Defined.

Lemma X10_ids_travel_in_one_joined_parameter_witness :
  ["a1"; "a2"] <> [] /\ ["a3"] <> []
  /\ join (["a1"; "a2"] ++ ["a3"]) = join ["a1"; "a2"] ++ "," ++ join ["a3"].
Proof.
  split; [discriminate | split; [discriminate |]].
  apply (proj2 (proj2 (proj2 (X10_ids_travel_in_one_joined_parameter
                                [] (Mock.fresh Mock.offline)))));
    discriminate.
Defined.

Lemma X11_followsPlaylist_reads_the_first_answer_witness :
  (playlists_userFollows
     (UserClient.client (UserClient.this (Mock.fresh (Fixture.answering (JArr [])))))
     "p1" (UserClient.id (UserClient.this (Mock.fresh (Fixture.answering (JArr [])))))
   = Return (JArr [])
   /\ UserClient.followsPlaylist "p1" (Mock.fresh (Fixture.answering (JArr [])))
      = (Return (UserClient.AJson (JBool false)), Mock.fresh (Fixture.answering (JArr []))))
  /\
  (playlists_userFollows
     (UserClient.client (UserClient.this (Mock.fresh (Fixture.answering JNull))))
     "p1" (UserClient.id (UserClient.this (Mock.fresh (Fixture.answering JNull))))
   = Return JNull
   /\ readable JNull = false
   /\ exists msg, UserClient.followsPlaylist "p1" (Mock.fresh (Fixture.answering JNull))
                  = (Throw (TypeError msg), Mock.fresh (Fixture.answering JNull))).
Proof.
  split.
  - split; [reflexivity |].
    apply (proj1 (X11_followsPlaylist_reads_the_first_answer
                    "p1" (Mock.fresh (Fixture.answering (JArr [])))) []).
    reflexivity.
  - split; [reflexivity | split; [reflexivity |]].
    apply (proj2 (X11_followsPlaylist_reads_the_first_answer
                    "p1" (Mock.fresh (Fixture.answering JNull))) JNull);
      reflexivity.
Defined.

Lemma X12_a_page_keeps_the_order_of_the_response_witness :
  UserClient.typed_fallback (UserClient.CGetTopTracks None)
  = Some (UserClient.APaging UserClient.zero_paging)
  /\ Forall2 (fun x it => item_of (UserClient.CGetTopTracks None)
                                  (Mock.serving Fixture.page) x = Return it)
             [Mock.partial_record; Mock.full_record]
             [ITrack Mock.partial_record; ITrack Mock.full_record]
  /\ fst (UserClient.perform (UserClient.CGetTopTracks None)
                             (Mock.fresh (Mock.serving Fixture.page)))
     = Return (UserClient.APaging
                 (mkPaging (JNum 2) (JNum 0) (JNum 7)
                           [ITrack Mock.partial_record; ITrack Mock.full_record])).
Proof.
  assert (Hall : Forall2 (fun x it => item_of (UserClient.CGetTopTracks None)
                                              (Mock.serving Fixture.page) x = Return it)
                         [Mock.partial_record; Mock.full_record]
                         [ITrack Mock.partial_record; ITrack Mock.full_record]).
  { repeat constructor. }
  split; [reflexivity | split; [exact Hall |]].
  apply (X12_a_page_keeps_the_order_of_the_response
           (imports := Mock.suppressing)
           (UserClient.CGetTopTracks None) (Mock.fresh (Mock.serving Fixture.page))
           Fixture.page
           [("limit", JNum 2); ("offset", JNum 0); ("total", JNum 7);
            ("items", JArr [Mock.partial_record; Mock.full_record])]
           [Mock.partial_record; Mock.full_record]
           [ITrack (imports := Mock.suppressing) Mock.partial_record;
            ITrack (imports := Mock.suppressing) Mock.full_record]).
  - reflexivity.
  - intros req _. reflexivity.
  - reflexivity.
  - reflexivity.
  - exact Hall.
Defined.

Lemma X13_a_page_is_whole_or_zero_witness :
  quiet Mock.suppressing
  /\ UserClient.typed_fallback (UserClient.CGetTopArtists None)
     = Some (UserClient.APaging UserClient.zero_paging)
  /\ Exists (fun x => exists e, item_of (UserClient.CGetTopArtists None)
                                        (Mock.serving Fixture.torn_page) x = Throw e)
            [Mock.partial_record; JNull]
  /\ fst (UserClient.perform (UserClient.CGetTopArtists None)
                             (Mock.fresh (Mock.serving Fixture.torn_page)))
     = Return (UserClient.APaging UserClient.zero_paging).
Proof.
  assert (Hbad : Exists (fun x => exists e, item_of (UserClient.CGetTopArtists None)
                                                    (Mock.serving Fixture.torn_page) x = Throw e)
                        [Mock.partial_record; JNull]).
  { apply Exists_cons_tl. apply Exists_cons_hd. eexists. reflexivity. }
  split; [exact suppressing_is_quiet | split; [reflexivity | split; [exact Hbad |]]].
  apply (proj2 (X13_a_page_is_whole_or_zero
                  (UserClient.CGetTopArtists None)
                  (Mock.fresh (Mock.serving Fixture.torn_page))
                  Fixture.torn_page suppressing_is_quiet eq_refl
                  (fun req _ => eq_refl))
               [("limit", JNum 2); ("offset", JNum 0); ("total", JNum 7);
                ("items", JArr [Mock.partial_record; JNull])]
               [Mock.partial_record; JNull]).
  - reflexivity.
  - reflexivity.
  - exact Hbad.
Defined.

Lemma X14_when_the_artist_constructor_returns_witness :
  (has_key "popularity" [("id", JStr "a1"); ("name", JStr "Old name")] = false
   \/ readable (member "followers" [("id", JStr "a1"); ("name", JStr "Old name")]) = true)
  /\ exists a, Artist.constructor Mock.partial_record Mock.offline = Return a.
Proof.
  assert (Hshape : has_key "popularity" [("id", JStr "a1"); ("name", JStr "Old name")] = false
                   \/ readable (member "followers"
                                       [("id", JStr "a1"); ("name", JStr "Old name")]) = true).
  { left. reflexivity. }
  split; [exact Hshape |].
  exact (proj2 (X14_when_the_artist_constructor_returns Mock.offline Mock.partial_record)
               Hshape).
Defined.

